(** * wpull: the application builder (src/wpull/app.py)

    A shallow embedding of [Builder], the class that turns the parsed
    command line ([args]) into the object graph of a crawl: URL filters,
    document scrapers, file writer, recorder, request factory, HTTP client,
    URL table and engine.

    Python objects are modelled as constructor applications: a record (or an
    inductive constructor) holding the class that was called and the
    arguments it received.  The builder's class registry [self._classes] is
    a finite map from names to classes, exceptions are explicit results, and
    the effects of [build] (logging set-up, hook script, URL table insertion,
    engine run) are collected in a trace. *)

From Stdlib Require Import ZArith QArith String Ascii List Lia Bool.
From stdpp Require Import base option strings gmap list.

Close Scope Q_scope.
Open Scope string_scope.
Open Scope Z_scope.

(* ===================================================================== *)
(** * Python values as the builder observes them                         *)
(* ===================================================================== *)

Module Py.

(** ** Exceptions and results *)

Inductive Exn :=
| KeyError (key : string)
| ValueError
| TypeError
| IOError
| ScriptError
| URLError.

Inductive Result (A : Type) :=
| Ok (a : A)
| Raise (e : Exn).
Arguments Ok {A} a.
Arguments Raise {A} e.

#[global] Instance Result_ret : MRet Result := fun A a => Ok a.
#[global] Instance Result_bind : MBind Result := fun A B f r =>
  match r with
  | Ok a => f a
  | Raise e => Raise e
  end.

(** ** Truthiness, the test behind every [if args.x:] *)

Definition truthy_str (o : option string) : bool :=
  match o with
  | Some s => negb (String.eqb s "")
  | None => false
  end.

(** Numeric options (seconds) are finite rationals or [None]. *)
Definition truthy_num (o : option Q) : bool :=
  match o with
  | Some q => negb (Qeq_bool q 0)
  | None => false
  end.

(** A file object is always true, an absent one ([None]) is not. *)
Definition truthy_file (o : option (list string)) : bool :=
  match o with
  | Some _ => true
  | None => false
  end.

(** [o == 'literal'] for an option that is a string or [None]. *)
Definition str_eq (o : option string) (lit : string) : bool :=
  match o with
  | Some s => String.eqb s lit
  | None => false
  end.

(** ** Strings: code points below 256, one [ascii] each *)

(** [str.isspace] on one character, restricted to code points below 256:
    TAB..CR, FS..US, SPACE, NEL and NBSP. *)
Definition isspace (c : ascii) : bool :=
  let n := N_of_ascii c in
  (((9 <=? n) && (n <=? 13)) || ((28 <=? n) && (n <=? 32))
   || (n =? 133) || (n =? 160))%N.

Fixpoint lstrip (s : string) : string :=
  match s with
  | EmptyString => EmptyString
  | String c s' => if isspace c then lstrip s' else s
  end.

Fixpoint rstrip (s : string) : string :=
  match s with
  | EmptyString => EmptyString
  | String c s' =>
      match rstrip s' with
      | EmptyString => if isspace c then EmptyString else String c EmptyString
      | r => String c r
      end
  end.

(** [s.strip()] *)
Definition strip (s : string) : string := rstrip (lstrip s).

(** The text before the first [sep] and the text after it, when [sep]
    occurs. *)
Fixpoint partition (sep : ascii) (s : string) : option (string * string) :=
  match s with
  | EmptyString => None
  | String c s' =>
      if Ascii.eqb c sep then Some (EmptyString, s')
      else match partition sep s' with
           | Some (a, b) => Some (String c a, b)
           | None => None
           end
  end.

(** [s.split(sep, 1)]: at most one split, so one or two pieces. *)
Definition split1 (sep : ascii) (s : string) : list string :=
  match partition sep s with
  | Some (a, b) => [a; b]
  | None => [s]
  end.

(** [name, value = pieces]: unpacking into two targets. *)
Definition unpack2 {A} (pieces : list A) : Result (A * A) :=
  match pieces with
  | [a; b] => Ok (a, b)
  | _ => Raise ValueError
  end.

Definition contains (sep : ascii) (s : string) : bool :=
  match partition sep s with
  | Some _ => true
  | None => false
  end.

(** ASCII lower-casing, for case-insensitive header names. *)
Definition lower_char (c : ascii) : ascii :=
  let n := N_of_ascii c in
  if ((65 <=? n) && (n <=? 90))%N then ascii_of_N (n + 32) else c.

Fixpoint lower (s : string) : string :=
  match s with
  | EmptyString => EmptyString
  | String c s' => String (lower_char c) (lower s')
  end.

(** Opaque positional and keyword arguments forwarded by the factories
    ([*args, **kwargs]). *)
Inductive Val :=
| VNone
| VBool (b : bool)
| VInt (z : Z)
| VStr (s : string).

Record CallArgs := {
  positional : list Val;
  keywords : list (string * Val);
}.

(** The constants of the [logging] module. *)
Definition DEBUG : Z := 10.
Definition INFO : Z := 20.
Definition WARN : Z := 30.

End Py.
Import Py.

(* ===================================================================== *)
(** * The parsed command line                                            *)
(* ===================================================================== *)

(** The attributes of [args] that the builder reads.  Flags are booleans,
    optional texts are [option string], repeatable options are lists, and
    [input_file] is the open file of seed URLs, read line by line. *)
Record Args := {
  urls : list string;
  input_file : option (list string);
  concurrent : Z;
  verbosity : option Z;
  output_file : option string;
  append_output : option string;
  python_script : option string;
  database : option string;
  (* filters *)
  domains : option (list string);
  exclude_domains : option (list string);
  hostnames : option (list string);
  exclude_hostnames : option (list string);
  tries : option Z;
  recursive : bool;
  page_requisites : bool;
  level : option Z;
  span_hosts : bool;
  accept_regex : option string;
  reject_regex : option string;
  include_directories : option (list string);
  exclude_directories : option (list string);
  no_parent : bool;
  (* scrapers *)
  follow_tags : option (list string);
  ignore_tags : option (list string);
  relative : bool;
  robots : bool;
  (* recorders *)
  warc_file : option string;
  no_warc_compression : bool;
  warc_header : list string;
  warc_tempdir : option string;
  warc_log : bool;
  warc_append : bool;
  server_response : bool;
  (* processor *)
  wait : option Q;
  random_wait : bool;
  waitretry : option Q;
  retry_connrefused : bool;
  retry_dns_error : bool;
  max_redirect : option Z;
  (* writer *)
  delete_after : bool;
  use_directories : option string;
  directory_prefix : option string;
  default_page : option string;
  cut_dirs : option Z;
  protocol_directories : bool;
  host_directories : bool;
  continue_download : bool;
  clobber_method : option string;
  timestamping : bool;
  save_headers : bool;
  use_server_timestamps : bool;
  (* requests *)
  user_agent : option string;
  referer : option string;
  header : list string;
  (* network *)
  dns_timeout : option Q;
  connect_timeout : option Q;
  read_timeout : option Q;
  timeout : option Q;
  inet_family : option string;
  prefer_family : option string;
  rotate_dns : bool;
  http_keep_alive : bool;
}.


(* ===================================================================== *)
(** * Classes and the objects built from them                            *)
(* ===================================================================== *)

(** The hook environment created by [HookEnvironment()]. *)
Inductive HookEnvironment := HookEnvironment_new.

#[global] Instance HookEnvironment_eq_dec : EqDecision HookEnvironment.
Proof. solve_decision. Defined.

(** What a registry entry can hold: one of the imported classes, or one of
    the three factories of a hook environment. *)
Inductive Class :=
| URLInfo_class
| URLTable_class
| HTMLScraper_class
| CSSScraper_class
| Client_class
| Connection_class
| HostConnectionPool_class
| ConnectionPool_class
| Request_class
| Resolver_class
| WebProcessor_class
| WARCRecorder_class
| DemuxRecorder_class
| PrintServerResponseRecorder_class
| ProgressRecorder_class
| LinearWaiter_class
| PathNamer_class
| Engine_class
| engine_factory (h : HookEnvironment)
| web_processor_factory (h : HookEnvironment)
| resolver_factory (h : HookEnvironment).

#[global] Instance Class_eq_dec : EqDecision Class.
Proof. solve_decision. Defined.

(** Modelled from the spec: [URLInfo] (wpull.url) is the URLRecord of the
    data model, a canonical URL string with its scheme, host, port and
    path.  The builder reads only [url]. *)
Record URLInfo := {
  url : string;
  scheme : string;
  hostname : string;
  port : Z;
  path : string;
}.

(** ** URL filters, called directly with their arguments *)

Inductive URLFilter :=
| HTTPFilter
| BackwardDomainFilter (accepted rejected : option (list string))
| HostnameFilter (accepted rejected : option (list string))
| TriesFilter (max_tries : option Z)
| RecursiveFilter (enabled page_requisites : bool)
| LevelFilter (max_depth : option Z)
| SpanHostsFilter (input_url_infos : list URLInfo) (enabled : bool)
| RegexFilter (accepted rejected : option string)
| DirectoryFilter (accepted rejected : option (list string))
| ParentFilter.

Inductive FilterKind :=
| IsHTTP | IsDomain | IsHostname | IsTries | IsRecursive | IsLevel
| IsSpanHosts | IsRegex | IsDirectory | IsParent.

#[global] Instance FilterKind_eq_dec : EqDecision FilterKind.
Proof. solve_decision. Defined.

Definition filter_kind (f : URLFilter) : FilterKind :=
  match f with
  | HTTPFilter => IsHTTP
  | BackwardDomainFilter _ _ => IsDomain
  | HostnameFilter _ _ => IsHostname
  | TriesFilter _ => IsTries
  | RecursiveFilter _ _ => IsRecursive
  | LevelFilter _ => IsLevel
  | SpanHostsFilter _ _ => IsSpanHosts
  | RegexFilter _ _ => IsRegex
  | DirectoryFilter _ _ => IsDirectory
  | ParentFilter => IsParent
  end.

(** How many filters of a kind a pipeline holds. *)
Definition count_kind (k : FilterKind) (filters : list URLFilter) : nat :=
  length (List.filter (fun f => bool_decide (filter_kind f = k)) filters).

(** ** Document scrapers, called directly *)

Inductive Scraper :=
| HTMLScraper (followed_tags ignored_tags : option (list string))
    (only_relative robots : bool)
| CSSScraper.

Definition scraper_class (s : Scraper) : Class :=
  match s with
  | HTMLScraper _ _ _ _ => HTMLScraper_class
  | CSSScraper => CSSScraper_class
  end.

(** ** Writers *)

Record PathNamer := {
  pn_cls : Class;
  pn_root : option string;
  pn_index : option string;
  pn_use_dir : bool;
  pn_cut : option Z;
  pn_protocol : bool;
  pn_hostname : bool;
}.

Inductive FileWriterClass :=
| OverwriteFileWriter
| IgnoreFileWriter
| TimestampingFileWriter
| AntiClobberFileWriter.

Inductive Writer :=
| NullWriter
| FileWriter (file_class : FileWriterClass) (path_namer : PathNamer)
    (file_continuing headers_included local_timestamping : bool).

(** ** Recorders *)

Inductive Sink :=
| WARCRecorder (cls : Class) (filename : string) (compress : bool)
    (extra_fields : list (string * string)) (temp_dir : option string)
    (log appending : bool)
| PrintServerResponseRecorder (cls : Class)
| ProgressRecorder (cls : Class).

Record DemuxRecorder := {
  demux_cls : Class;
  recorders : list Sink;
}.

Definition is_warc (s : Sink) : bool :=
  match s with WARCRecorder _ _ _ _ _ _ _ => true | _ => false end.
Definition is_print_server_response (s : Sink) : bool :=
  match s with PrintServerResponseRecorder _ => true | _ => false end.
Definition is_progress (s : Sink) : bool :=
  match s with ProgressRecorder _ => true | _ => false end.

(** ** Requests *)

(** Modelled from the spec: [Request] and its field record (wpull.http) are
    not part of this file.  The data model gives a request header fields
    that are ordered, keyed case-insensitively, and may repeat.  Assigning
    [fields[name] = value] leaves [value] as the only value of [name];
    [fields.parse(line)] reads one [name: value] line and adds it, keeping
    the values already there. *)
Definition Fields := list (string * string).

Definition same_name (a b : string) : bool := String.eqb (lower a) (lower b).

Definition fields_get_list (name : string) (fs : Fields) : list string :=
  map snd (List.filter (fun kv => same_name (fst kv) name) fs).

Definition fields_contains (name : string) (fs : Fields) : bool :=
  existsb (fun kv => same_name (fst kv) name) fs.

Definition fields_setitem (name value : string) (fs : Fields) : Fields :=
  (List.filter (fun kv => negb (same_name (fst kv) name)) fs
   ++ [(name, value)])%list.

Definition fields_add (name value : string) (fs : Fields) : Fields :=
  (fs ++ [(name, value)])%list.

Definition fields_parse (line : string) (fs : Fields) : Result Fields :=
  '(name, value) ← unpack2 (split1 ":" line);
  mret (fields_add (strip name) (strip value) fs).

Record Request := {
  request_cls : Class;
  request_args : CallArgs;
  fields : Fields;
}.

Definition with_fields (r : Request) (fs : Fields) : Request :=
  {| request_cls := request_cls r; request_args := request_args r;
     fields := fs |}.

(** ** Network objects *)

(** [Resolver.IPv4] and [Resolver.IPv6]. *)
Inductive Family := IPv4 | IPv6.

Record Resolver := {
  resolver_cls : Class;
  families : list Family;
  resolver_timeout : option Q;
  rotate : bool;
}.

Record Connection := {
  connection_cls : Class;
  connection_args : list Val;
  connection_kwargs : list (string * Val);
  connection_resolver : Resolver;
  connection_connect_timeout : option Q;
  connection_read_timeout : option Q;
  connection_keep_alive : bool;
}.

(** The closure [connection_factory]: the local variables it captures.  It
    also refers to [self], which is supplied when the closure is called. *)
Record ConnectionFactory := {
  cf_resolver : Resolver;
  cf_connect_timeout : option Q;
  cf_read_timeout : option Q;
}.

(** The closure [host_connection_pool_factory]. *)
Record HostConnectionPoolFactory := {
  hf_connection_factory : ConnectionFactory;
}.

Record HostConnectionPool := {
  host_pool_cls : Class;
  host_pool_args : list Val;
  host_pool_kwargs : list (string * Val);
  host_pool_connection_factory : ConnectionFactory;
}.

Record ConnectionPool := {
  pool_cls : Class;
  host_connection_pool_factory : HostConnectionPoolFactory;
}.

Record Client := {
  client_cls : Class;
  connection_pool : ConnectionPool;
  recorder : DemuxRecorder;
}.

(** ** Processor, URL table, engine *)

Record Waiter := {
  waiter_cls : Class;
  waiter_wait : option Q;
  waiter_random_wait : bool;
  waiter_max_wait : option Q;
}.

(** The closure [request_factory] captures nothing but [self]. *)
Inductive RequestFactory := request_factory_closure.

Record WebProcessor := {
  processor_cls : Class;
  url_filters : list URLFilter;
  document_scrapers : list Scraper;
  file_writer : Writer;
  waiter : Waiter;
  request_factory : RequestFactory;
  processor_retry_connrefused : bool;
  processor_retry_dns_error : bool;
  processor_max_redirects : option Z;
  processor_robots : bool;
}.

Record URLTable := {
  table_cls : Class;
  table_path : option string;
}.

Record Engine := {
  engine_cls : Class;
  engine_url_table : URLTable;
  engine_http_client : Client;
  engine_processor : WebProcessor;
  engine_concurrent : Z;
}.

(* ===================================================================== *)
(** * The builder object and the effects of building                     *)
(* ===================================================================== *)

Record Builder := {
  _args : Args;
  _classes : gmap string Class;
  _url_infos : list URLInfo;
}.

(** What [build] and [build_and_run] do to the outside world, in order.
    Messages sent to the module logger are not traced. *)
Inductive Event :=
| EvBasicConfig (level : Z)
| EvSetBlockingLogThreshold (seconds : Z)
| EvAddFileHandler (filename mode : string) (level : Z)
| EvOpen (filename : string)
| EvExec (code filename : string) (h : HookEnvironment)
| EvURLTableAdd (table : URLTable) (urls : list string)
| EvRunSync (engine : Engine).

Definition is_add (e : Event) : bool :=
  match e with EvURLTableAdd _ _ => true | _ => false end.

Definition is_run (e : Event) : bool :=
  match e with EvRunSync _ => true | _ => false end.

Record World := {
  self : Builder;
  trace : list Event;
}.

(** Computations that may change the builder's registry, extend the trace
    and raise.  What was done before an exception stays done. *)
Definition M (A : Type) : Type := World -> Result A * World.

#[global] Instance M_ret : MRet M := fun A a w => (Ok a, w).
#[global] Instance M_bind : MBind M := fun A B f m w =>
  match m w with
  | (Ok a, w') => f a w'
  | (Raise e, w') => (Raise e, w')
  end.

Definition lift {A} (r : Result A) : M A := fun w => (r, w).

(** A computation that starts by looking at [self]. *)
Definition with_self {A} (f : Builder -> M A) : M A := fun w => f (self w) w.

Definition read {A} (f : Builder -> Result A) : M A :=
  with_self (fun b => lift (f b)).

Definition emit (e : Event) : M unit := fun w =>
  (Ok tt, {| self := self w; trace := (trace w ++ [e])%list |}).

Definition pass : M unit := mret tt.

(** [self._classes[key] = cls] *)
Definition set_class (key : string) (cls : Class) : M unit := fun w =>
  (Ok tt,
   {| self := {| _args := _args (self w);
                 _classes := <[key := cls]> (_classes (self w));
                 _url_infos := _url_infos (self w) |};
      trace := trace w |}).

(** [self._classes[key]] *)
Definition get_class (b : Builder) (key : string) : Result Class :=
  match _classes b !! key with
  | Some cls => Ok cls
  | None => Raise (KeyError key)
  end.

(** [if args.x:] on an optional text: the text when it is true. *)
Definition nonempty (o : option string) : option string :=
  match o with
  | Some s => if String.eqb s "" then None else Some s
  | None => None
  end.

Definition num_eq (o : option Z) (z : Z) : bool :=
  match o with
  | Some v => Z.eqb v z
  | None => false
  end.

(** [o in (x, y, ...)] for an optional integer and a tuple of such. *)
Definition in_tuple (o : option Z) (t : list (option Z)) : bool :=
  bool_decide (o ∈ t).

Definition has_key (keys : list string) (kwargs : list (string * Val)) : bool :=
  existsb (fun kv => existsb (String.eqb (fst kv)) keys) kwargs.

(* ===================================================================== *)
(** * A concrete command line and concrete collaborators                 *)
(* ===================================================================== *)

Module Demo.

(** A command line in which only the options named here are given. *)
Definition args (urls : list string) (input_file : option (list string))
    (python_script warc_file : option string) (warc_header : list string)
    (user_agent referer : option string) (header : list string)
    (timeout : option Q) (no_parent : bool) : Args := {|
  urls := urls;
  input_file := input_file;
  concurrent := 1;
  verbosity := None;
  output_file := None;
  append_output := None;
  python_script := python_script;
  database := Some ":memory:";
  domains := None;
  exclude_domains := None;
  hostnames := None;
  exclude_hostnames := None;
  tries := Some 20;
  recursive := false;
  page_requisites := false;
  level := Some 5;
  span_hosts := false;
  accept_regex := None;
  reject_regex := None;
  include_directories := None;
  exclude_directories := None;
  no_parent := no_parent;
  follow_tags := None;
  ignore_tags := None;
  relative := false;
  robots := true;
  warc_file := warc_file;
  no_warc_compression := false;
  warc_header := warc_header;
  warc_tempdir := None;
  warc_log := true;
  warc_append := false;
  server_response := false;
  wait := None;
  random_wait := false;
  waitretry := Some (10 # 1)%Q;
  retry_connrefused := false;
  retry_dns_error := false;
  max_redirect := Some 20;
  delete_after := false;
  use_directories := None;
  directory_prefix := None;
  default_page := None;
  cut_dirs := None;
  protocol_directories := false;
  host_directories := true;
  continue_download := false;
  clobber_method := None;
  timestamping := false;
  save_headers := false;
  use_server_timestamps := true;
  user_agent := user_agent;
  referer := referer;
  header := header;
  dns_timeout := Some (1 # 1)%Q;
  connect_timeout := Some (2 # 1)%Q;
  read_timeout := Some (900 # 1)%Q;
  timeout := timeout;
  inet_family := None;
  prefer_family := None;
  rotate_dns := false;
  http_keep_alive := true;
|}.

(** One seed, nothing else given. *)
Definition plain : Args :=
  args ["http://a.test/"] None None None [] None None [] None false.

(** A stand-in for [URLInfo.parse]: a string without a scheme gets the
    default one; the empty string is rejected. *)
Definition parse (cls : Class) (url_string default_scheme : string)
    : Result URLInfo :=
  if String.eqb url_string "" then Raise URLError
  else Ok {| url := if contains ":" url_string then url_string
                    else default_scheme ++ "://" ++ url_string;
             scheme := default_scheme;
             hostname := "";
             port := 80;
             path := "/" |}.

Definition Namespace_str (a : Args) : string := "Namespace()".

Definition version : string := "0.1".

(** A stand-in for [Request.new]: a request with no header yet. *)
Definition new (cls : Class) (a : CallArgs) : Result Request :=
  Ok {| request_cls := cls; request_args := a; fields := [] |}.

Definition open_ (filename : string) : Result (Result string) :=
  Ok (Ok "pass").

Definition exec_ (text filename : string) (h : HookEnvironment)
    : Result unit := Ok tt.

Definition FileHandler (filename mode : string) : Result unit := Ok tt.

Definition run_sync (e : Engine) : Result Z := Ok 0.

Definition get (url : string) : CallArgs :=
  {| positional := [VStr url]; keywords := [] |}.

End Demo.

(* ===================================================================== *)
(** * Builder                                                            *)
(* ===================================================================== *)

Section Builder.

#[local] Set Default Proof Using "Type".


(** The collaborators that live outside this file. *)

(** [cls.parse(url_string, default_scheme=...)] for the class found under
    ['URLInfo']. *)
Variable class_parse : Class -> string -> string -> Result URLInfo.
(** [str(args)] *)
Variable Namespace_str : Args -> string.
(** [wpull.version.__version__] *)
Variable version : string.
(** [cls.new] on the forwarded arguments, for the class found under
    ['Request']. *)
Variable class_new : Class -> CallArgs -> Result Request.
(** [open(filename)]; an open file is what its [read()] will give. *)
Variable open_ : string -> Result (Result string).
(** [compile(text, filename, 'exec')] followed by [exec]. *)
Variable exec_ : string -> string -> HookEnvironment -> Result unit.
(** [logging.FileHandler(filename, mode)] *)
Variable FileHandler : string -> string -> Result unit.
(** [io_loop.run_sync(engine)] *)
Variable run_sync : Engine -> Result Z.

(** Drops the collaborators a goal does not mention, so that a proof cannot
    pick them up. *)
Ltac unused :=
  try clear class_parse; try clear Namespace_str; try clear version;
  try clear class_new; try clear open_; try clear exec_;
  try clear FileHandler; try clear run_sync.

(** The registry literal of [__init__]. *)
Definition initial_classes : gmap string Class :=
  list_to_map [
    ("URLInfo", URLInfo_class);
    ("URLTable", URLTable_class);
    ("HTMLScraper", HTMLScraper_class);
    ("CSSScraper", Engine_class);
    ("Client", Client_class);
    ("Connection", Connection_class);
    ("HostConnectionPool", HostConnectionPool_class);
    ("ConnectionPool", ConnectionPool_class);
    ("Request", Request_class);
    ("Resolver", Resolver_class);
    ("WebProcessor", WebProcessor_class);
    ("WARCRecorder", WARCRecorder_class);
    ("DemuxRecorder", DemuxRecorder_class);
    ("PrintServerResponseRecorder", PrintServerResponseRecorder_class);
    ("ProgressRecorder", ProgressRecorder_class);
    ("Waiter", LinearWaiter_class);
    ("PathNamer", PathNamer_class);
    ("Engine", Engine_class)
  ].

(** The seed strings: the command line, then the lines of the input file. *)
Definition url_string_iter (args : Args) : list string :=
  match input_file args with
  | Some lines => (urls args ++ lines)%list
  | None => urls args
  end.

Definition _build_input_urls (args : Args) (classes : gmap string Class)
    (default_scheme : string) : Result (list URLInfo) :=
  mapM (fun url_string =>
          cls ← match classes !! "URLInfo" with
                | Some cls => Ok cls
                | None => Raise (KeyError "URLInfo")
                end;
          class_parse cls url_string default_scheme)
       (url_string_iter args).

Definition __init__ (args : Args) : Result Builder :=
  url_infos ← _build_input_urls args initial_classes "http";
  mret {| _args := args; _classes := initial_classes;
          _url_infos := url_infos |}.

(** ** Logging *)

Definition _setup_logging : M unit :=
  with_self (fun b =>
    let args := _args b in
    emit (EvBasicConfig
            match verbosity args with
            | Some v => if Z.eqb v 0 then INFO else v
            | None => INFO
            end) ;;
    if num_eq (verbosity args) DEBUG
    then emit (EvSetBlockingLogThreshold 5)
    else pass).

Definition add_file_handler (args : Args) (filename mode : string) : M unit :=
  lift (FileHandler filename mode) ;;
  emit (EvAddFileHandler filename mode
          (if num_eq (verbosity args) DEBUG then DEBUG else INFO)).

Definition _setup_file_logger : M unit :=
  with_self (fun b =>
    let args := _args b in
    match nonempty (output_file args), nonempty (append_output args) with
    | None, None => pass
    | Some filename, _ => add_file_handler args filename "w"
    | None, Some filename => add_file_handler args filename "a"
    end).

(** ** Script hooks *)

Definition _install_python_script (filename : string) : M unit :=
  emit (EvOpen filename) ;;
  in_file ← lift (open_ filename);
  let hook_environment := HookEnvironment_new in
  set_class "Engine" (engine_factory hook_environment) ;;
  set_class "WebProcessor" (web_processor_factory hook_environment) ;;
  set_class "Resolver" (resolver_factory hook_environment) ;;
  text ← lift in_file;
  emit (EvExec text filename hook_environment) ;;
  lift (exec_ text filename hook_environment).

Definition _install_script_hooks : M unit :=
  with_self (fun b =>
    match nonempty (python_script (_args b)) with
    | Some filename => _install_python_script filename
    | None => pass
    end).

(** ** URL filters and scrapers *)

Definition _build_url_filters (b : Builder) : list URLFilter :=
  let args := _args b in
  let filters := [
    HTTPFilter;
    BackwardDomainFilter (domains args) (exclude_domains args);
    HostnameFilter (hostnames args) (exclude_hostnames args);
    TriesFilter (tries args);
    RecursiveFilter (recursive args) (page_requisites args);
    LevelFilter (level args);
    SpanHostsFilter (_url_infos b) (span_hosts args);
    RegexFilter (accept_regex args) (reject_regex args);
    DirectoryFilter (include_directories args) (exclude_directories args)
  ] in
  if no_parent args then (filters ++ [ParentFilter])%list else filters.

Definition _build_document_scrapers (b : Builder) : list Scraper :=
  let args := _args b in
  [ HTMLScraper (follow_tags args) (ignore_tags args) (relative args)
      (robots args);
    CSSScraper ].

(** ** URL table *)

Definition _build_url_table : M URLTable :=
  with_self (fun b =>
    cls ← lift (get_class b "URLTable");
    let url_table := {| table_cls := cls;
                        table_path := database (_args b) |} in
    emit (EvURLTableAdd url_table (map url (_url_infos b))) ;;
    mret url_table).

(** ** Recorder *)

(** The loop over [args.warc_header]. *)
Fixpoint append_warc_headers (extra_fields : list (string * string))
    (headers : list string) : Result (list (string * string)) :=
  match headers with
  | [] => Ok extra_fields
  | header_string :: rest =>
      '(name, value) ← unpack2 (split1 ":" header_string);
      let name := strip name in
      let value := strip value in
      append_warc_headers (extra_fields ++ [(name, value)])%list rest
  end.

Definition _build_recorder (b : Builder) : Result DemuxRecorder :=
  let args := _args b in
  let recorders := [] in
  recorders ←
    match nonempty (warc_file args) with
    | Some warc_file =>
        let warc_path :=
          if no_warc_compression args
          then warc_file ++ ".warc"
          else warc_file ++ ".warc.gz" in
        let extra_fields := [
          ("robots", if robots args then "on" else "off");
          ("wpull-arguments", Namespace_str args)
        ] in
        extra_fields ← append_warc_headers extra_fields (warc_header args);
        cls ← get_class b "WARCRecorder";
        mret (recorders ++ [
          WARCRecorder cls warc_path (negb (no_warc_compression args))
            extra_fields (warc_tempdir args) (warc_log args)
            (warc_append args) ])%list
    | None => mret recorders
    end;
  recorders ←
    (if server_response args
     then cls ← get_class b "PrintServerResponseRecorder";
          mret (recorders ++ [PrintServerResponseRecorder cls])%list
     else mret recorders);
  recorders ←
    (if in_tuple (verbosity args) [Some INFO; Some DEBUG; Some WARN; None]
     then cls ← get_class b "ProgressRecorder";
          mret (recorders ++ [ProgressRecorder cls])%list
     else mret recorders);
  cls ← get_class b "DemuxRecorder";
  mret {| demux_cls := cls; recorders := recorders |}.

(** ** File writer *)

Definition _build_file_writer (b : Builder) : Result Writer :=
  let args := _args b in
  if delete_after args then mret NullWriter else
  let use_dir :=
    negb (Nat.eqb (length (urls args)) 1) || page_requisites args
    || recursive args in
  let use_dir :=
    if str_eq (use_directories args) "force" then true
    else if str_eq (use_directories args) "no" then false
    else use_dir in
  cls ← get_class b "PathNamer";
  let path_namer := {|
    pn_cls := cls;
    pn_root := directory_prefix args;
    pn_index := default_page args;
    pn_use_dir := use_dir;
    pn_cut := cut_dirs args;
    pn_protocol := protocol_directories args;
    pn_hostname := host_directories args;
  |} in
  let file_class :=
    if recursive args || page_requisites args || continue_download args
    then if str_eq (clobber_method args) "disable"
         then OverwriteFileWriter
         else IgnoreFileWriter
    else if timestamping args then TimestampingFileWriter
    else AntiClobberFileWriter in
  mret (FileWriter file_class path_namer (continue_download args)
          (save_headers args) (use_server_timestamps args)).

(** ** Request factory *)

(** The loop over [self._args.header]. *)
Fixpoint parse_headers (headers : list string) (fs : Fields) : Result Fields :=
  match headers with
  | [] => Ok fs
  | header_string :: rest =>
      fs ← fields_parse header_string fs;
      parse_headers rest fs
  end.

(** The body of the closure, called with the builder it closes over. *)
Definition call_request_factory (b : Builder) (a : CallArgs) : Result Request :=
  cls ← get_class b "Request";
  request ← class_new cls a;
  let user_agent :=
    match nonempty (user_agent (_args b)) with
    | Some user_agent => user_agent
    | None => "Mozilla/5.0 (compatible) Wpull/" ++ version
    end in
  let fs := fields_setitem "User-Agent" user_agent (fields request) in
  let fs :=
    match nonempty (referer (_args b)) with
    | Some referer => fields_setitem "Referer" referer fs
    | None => fs
    end in
  fs ← parse_headers (header (_args b)) fs;
  mret (with_fields request fs).

Definition _build_request_factory (b : Builder) : RequestFactory :=
  request_factory_closure.

(** ** Processor *)

Definition _build_processor (b : Builder) : Result WebProcessor :=
  let args := _args b in
  let url_filters := _build_url_filters b in
  let document_scrapers := _build_document_scrapers b in
  file_writer ← _build_file_writer b;
  waiter_cls ← get_class b "Waiter";
  let waiter := {| waiter_cls := waiter_cls;
                   waiter_wait := wait args;
                   waiter_random_wait := random_wait args;
                   waiter_max_wait := waitretry args |} in
  cls ← get_class b "WebProcessor";
  mret {| processor_cls := cls;
          url_filters := url_filters;
          document_scrapers := document_scrapers;
          file_writer := file_writer;
          waiter := waiter;
          request_factory := _build_request_factory b;
          processor_retry_connrefused := retry_connrefused args;
          processor_retry_dns_error := retry_dns_error args;
          processor_max_redirects := max_redirect args;
          processor_robots := robots args |}.

(** ** HTTP client *)

(** The three time-outs after [if args.timeout:]:
    [(dns_timeout, connect_timeout, read_timeout)]. *)
Definition timeouts (args : Args) : option Q * option Q * option Q :=
  if truthy_num (timeout args)
  then (timeout args, timeout args, timeout args)
  else (dns_timeout args, connect_timeout args, read_timeout args).

Definition resolver_families (args : Args) : list Family :=
  if str_eq (inet_family args) "IPv4" then [IPv4]
  else if str_eq (inet_family args) "IPv6" then [IPv6]
  else if str_eq (prefer_family args) "IPv6" then [IPv6; IPv4]
  else [IPv4; IPv6].

(** The body of the closure [connection_factory]. *)
Definition call_connection_factory (b : Builder) (cf : ConnectionFactory)
    (a : CallArgs) : Result Connection :=
  cls ← get_class b "Connection";
  if has_key ["resolver"; "connect_timeout"; "read_timeout"; "keep_alive"]
       (keywords a)
  then Raise TypeError
  else mret {| connection_cls := cls;
               connection_args := positional a;
               connection_kwargs := keywords a;
               connection_resolver := cf_resolver cf;
               connection_connect_timeout := cf_connect_timeout cf;
               connection_read_timeout := cf_read_timeout cf;
               connection_keep_alive := http_keep_alive (_args b) |}.

(** The body of the closure [host_connection_pool_factory]. *)
Definition call_host_connection_pool_factory (b : Builder)
    (hf : HostConnectionPoolFactory) (a : CallArgs) : Result HostConnectionPool :=
  cls ← get_class b "HostConnectionPool";
  if has_key ["connection_factory"] (keywords a)
  then Raise TypeError
  else mret {| host_pool_cls := cls;
               host_pool_args := positional a;
               host_pool_kwargs := keywords a;
               host_pool_connection_factory := hf_connection_factory hf |}.

(** The [Resolver] built inside [_build_http_client]. *)
Definition build_resolver (b : Builder) : Result Resolver :=
  let args := _args b in
  let '(dns_timeout, connect_timeout, read_timeout) := timeouts args in
  let families := resolver_families args in
  cls ← get_class b "Resolver";
  mret {| resolver_cls := cls;
          families := families;
          resolver_timeout := dns_timeout;
          rotate := rotate_dns args |}.

Definition _build_http_client (b : Builder) : Result Client :=
  let args := _args b in
  let '(dns_timeout, connect_timeout, read_timeout) := timeouts args in
  resolver ← build_resolver b;
  let connection_factory := {| cf_resolver := resolver;
                               cf_connect_timeout := connect_timeout;
                               cf_read_timeout := read_timeout |} in
  let host_connection_pool_factory :=
    {| hf_connection_factory := connection_factory |} in
  cls ← get_class b "ConnectionPool";
  let connection_pool :=
    {| pool_cls := cls;
       host_connection_pool_factory := host_connection_pool_factory |} in
  recorder ← _build_recorder b;
  cls ← get_class b "Client";
  mret {| client_cls := cls;
          connection_pool := connection_pool;
          recorder := recorder |}.

(** The connection factory a client's pool was given. *)
Definition client_connection_factory (c : Client) : ConnectionFactory :=
  hf_connection_factory (host_connection_pool_factory (connection_pool c)).

(** ** build *)

Definition build : M Engine :=
  _setup_logging ;;
  _setup_file_logger ;;
  _install_script_hooks ;;
  url_table ← _build_url_table;
  processor ← read _build_processor;
  http_client ← read _build_http_client;
  with_self (fun b =>
    cls ← lift (get_class b "Engine");
    mret {| engine_cls := cls;
            engine_url_table := url_table;
            engine_http_client := http_client;
            engine_processor := processor;
            engine_concurrent := concurrent (_args b) |}).

Definition build_and_run : M Z :=
  engine ← build;
  emit (EvRunSync engine) ;;
  lift (run_sync engine).

(** Running a computation on a fresh builder. *)
Definition start (b : Builder) : World := {| self := b; trace := [] |}.


(** ** Well-formed registries and inputs *)

(** The three names a hook script may rebind. *)
Definition hookable : list string := ["Engine"; "WebProcessor"; "Resolver"].

(** Every name of the registry literal is still bound. *)
Definition complete (m : gmap string Class) : Prop :=
  forall key, is_Some (initial_classes !! key) -> is_Some (m !! key).

(** Complete, and bound as in the literal outside the hookable names. *)
Definition standard (m : gmap string Class) : Prop :=
  complete m /\
  forall key, key ∉ hookable -> m !! key = initial_classes !! key.

(** The lists handed to [url_table.add], in order. *)
Definition adds (tr : list Event) : list (list string) :=
  omap (fun e => match e with
                 | EvURLTableAdd _ urls => Some urls
                 | _ => None
                 end) tr.

(** The engines handed to [run_sync], in order. *)
Definition runs (tr : list Event) : list Engine :=
  omap (fun e => match e with
                 | EvRunSync engine => Some engine
                 | _ => None
                 end) tr.

(** A computation that leaves the seeds alone: it keeps [_args] and
    [_url_infos], and whatever it adds to the trace is neither an insertion
    into the URL table nor an engine run. *)
Definition silent {A} (m : M A) : Prop :=
  forall w r w', m w = (r, w') ->
    _args (self w') = _args (self w) /\
    _url_infos (self w') = _url_infos (self w) /\
    exists evs, trace w' = (trace w ++ evs)%list /\
                adds evs = [] /\ runs evs = [].

(** No header of the archive lacks its colon (only read when an archive
    file is named). *)
Definition warc_headers_ok (a : Args) : bool :=
  negb (truthy_str (warc_file a)) || forallb (contains ":") (warc_header a).

(** The field a well-formed header line stands for. *)
Definition header_pair (line : string) : option (string * string) :=
  match partition ":" line with
  | Some (name, value) => Some (strip name, strip value)
  | None => None
  end.

Fixpoint all_space (s : string) : bool :=
  match s with
  | EmptyString => true
  | String c s' => isspace c && all_space s'
  end.

Definition head_space (s : string) : bool :=
  match s with
  | EmptyString => false
  | String c _ => isspace c
  end.

Fixpoint last_space (s : string) : bool :=
  match s with
  | EmptyString => false
  | String c EmptyString => isspace c
  | String _ s' => last_space s'
  end.

(** [t] is [s] without the white space at its two ends: [s] is [t] between
    two runs of white space, and [t] neither starts nor ends with white
    space. *)
Definition stripped_of (s t : string) : Prop :=
  exists l r, s = l ++ t ++ r /\
    all_space l = true /\ all_space r = true /\
    head_space t = false /\ last_space t = false.

Definition writer_file_class (w : Writer) : option FileWriterClass :=
  match w with
  | NullWriter => None
  | FileWriter file_class _ _ _ _ => Some file_class
  end.

(** ** Further notions used by the properties *)

(** A world with more events on its trace. *)
Definition extend (w : World) (evs : list Event) : World :=
  {| self := self w; trace := (trace w ++ evs)%list |}.

(** The file handler that [_setup_file_logger] asks for can be opened. *)
Definition file_logger_ok (a : Args) : Prop :=
  match nonempty (output_file a), nonempty (append_output a) with
  | None, None => True
  | Some filename, _ => FileHandler filename "w" = Ok tt
  | None, Some filename => FileHandler filename "a" = Ok tt
  end.

(** The hook script, when one is named, opens, reads and runs. *)
Definition script_ok (a : Args) : Prop :=
  match nonempty (python_script a) with
  | None => True
  | Some filename =>
      exists text, open_ filename = Ok (Ok text) /\
                   exec_ text filename HookEnvironment_new = Ok tt
  end.

(** The hook script [filename] stops with [e]: it does not open, or cannot
    be read, or raises when compiled and run. *)
Definition script_fails (filename : string) (e : Exn) : Prop :=
  open_ filename = Raise e \/
  open_ filename = Ok (Raise e) \/
  exists text, open_ filename = Ok (Ok text) /\
               exec_ text filename HookEnvironment_new = Raise e.

Inductive SinkKind := ArchiveSink | ServerResponseSink | ProgressSink.

Definition sink_kind (s : Sink) : SinkKind :=
  match s with
  | WARCRecorder _ _ _ _ _ _ _ => ArchiveSink
  | PrintServerResponseRecorder _ => ServerResponseSink
  | ProgressRecorder _ => ProgressSink
  end.

(** The registry after a hook script was installed. *)
Definition hooked (m : gmap string Class) : gmap string Class :=
  <["Resolver" := resolver_factory HookEnvironment_new]>
    (<["WebProcessor" := web_processor_factory HookEnvironment_new]>
       (<["Engine" := engine_factory HookEnvironment_new]> m)).

(** A computation that keeps [_args] and [_url_infos] and rebinds no name of
    the registry other than the hookable ones. *)
Definition framed {A} (m : M A) : Prop :=
  forall w r w', m w = (r, w') ->
    _args (self w') = _args (self w) /\
    _url_infos (self w') = _url_infos (self w) /\
    (forall key, key ∉ hookable ->
       _classes (self w') !! key = _classes (self w) !! key) /\
    (complete (_classes (self w)) -> complete (_classes (self w'))).

(* ===================================================================== *)
(** * Properties                                                         *)
(* ===================================================================== *)

(** ** The result monad and the registry *)

Lemma bind_Ok {A B} (f : A -> Result B) (a : A) : (Ok a ≫= f) = f a.
Proof. reflexivity. Qed.

Lemma bind_Raise {A B} (f : A -> Result B) (e : Exn) :
  (Raise e ≫= f) = Raise e.
Proof. reflexivity. Qed.

Lemma bind_Ok_inv {A B} (f : A -> Result B) (r : Result A) (y : B) :
  (r ≫= f) = Ok y -> exists a, r = Ok a /\ f a = Ok y.
Proof. destruct r as [a|e]; [eauto | discriminate]. Qed.

Lemma get_class_Some b key cls :
  _classes b !! key = Some cls -> get_class b key = Ok cls.
Proof. unfold get_class. now intros ->. Qed.

Lemma get_class_Ok b key cls :
  get_class b key = Ok cls -> _classes b !! key = Some cls.
Proof. unfold get_class. destruct (_ !! _); now inversion 1. Qed.

Lemma str_eq_true o lit : str_eq o lit = true <-> o = Some lit.
Proof.
  destruct o as [s|]; simpl; [|split; discriminate].
  rewrite String.eqb_eq. split; congruence.
Qed.

Lemma str_eq_false o lit : str_eq o lit = false <-> o <> Some lit.
Proof.
  rewrite <- str_eq_true. destruct (str_eq o lit); split; congruence.
Qed.

Lemma truthy_nonempty o : truthy_str o = true <-> is_Some (nonempty o).
Proof.
  destruct o as [s|]; simpl; [destruct (String.eqb s "")|]; simpl;
    split; intros H; try discriminate; eauto;
    destruct H; discriminate.
Qed.

Lemma falsy_nonempty o : truthy_str o = false <-> nonempty o = None.
Proof.
  destruct o as [s|]; simpl; [destruct (String.eqb s "")|]; simpl;
    split; intros H; try discriminate; reflexivity.
Qed.

Lemma nonempty_Some o s : nonempty o = Some s <-> o = Some s /\ s <> "".
Proof.
  destruct o as [t|]; simpl; [|split; [discriminate | intros [? _]; discriminate]].
  destruct (String.eqb_spec t ""); split; try discriminate.
  - intros [[= ->] ?]. congruence.
  - intros [= ->]. auto.
  - intros [[= ->] _]. reflexivity.
Qed.

Lemma initial_complete : complete initial_classes.
Proof. intros key H. exact H. Qed.

Lemma initial_standard : standard initial_classes.
Proof. split; [apply initial_complete | reflexivity]. Qed.

Lemma complete_insert m key cls : complete m -> complete (<[key := cls]> m).
Proof.
  intros H k Hk. destruct (decide (key = k)) as [->|Hne].
  - rewrite lookup_insert_eq. eauto.
  - rewrite lookup_insert_ne by assumption. auto.
Qed.

Lemma standard_insert m key cls :
  key ∈ hookable -> standard m -> standard (<[key := cls]> m).
Proof.
  intros Hin [Hc Hs]. split; [now apply complete_insert|].
  intros k Hk. rewrite lookup_insert_ne; [auto|].
  intros ->. contradiction.
Qed.

(** Looking a literal name up in a complete registry succeeds. *)
Lemma complete_get b key :
  complete (_classes b) -> is_Some (initial_classes !! key) ->
  exists cls, get_class b key = Ok cls.
Proof.
  intros Hc Hk. destruct (Hc key Hk) as [cls Hcls].
  exists cls. now apply get_class_Some.
Qed.

(** Outside the hookable names a standard registry answers as the literal. *)
Lemma standard_get b key cls :
  standard (_classes b) -> bool_decide (key ∉ hookable) = true ->
  initial_classes !! key = Some cls -> get_class b key = Ok cls.
Proof.
  intros [_ Hs] Hk Hcls. apply get_class_Some. rewrite Hs; [assumption|].
  now apply bool_decide_eq_true in Hk.
Qed.


(** ** URL filters *)

(** C1: the filter pipeline is the nine required filters (HTTP scheme,
    domain, hostname, tries, recursive, level, span-hosts, regex,
    directory), each exactly once, followed by the parent filter exactly
    when [no_parent] is set; nothing else is in it. *)
Theorem url_filters_exactly_required (b : Builder) :
  let a := _args b in
  _build_url_filters b =
    ([ HTTPFilter;
       BackwardDomainFilter (domains a) (exclude_domains a);
       HostnameFilter (hostnames a) (exclude_hostnames a);
       TriesFilter (tries a);
       RecursiveFilter (recursive a) (page_requisites a);
       LevelFilter (level a);
       SpanHostsFilter (_url_infos b) (span_hosts a);
       RegexFilter (accept_regex a) (reject_regex a);
       DirectoryFilter (include_directories a) (exclude_directories a) ]
     ++ (if no_parent a then [ParentFilter] else []))%list
  /\ forall k : FilterKind,
       count_kind k (_build_url_filters b) =
         if decide (k = IsParent)
         then (if no_parent a then 1%nat else 0%nat)
         else 1%nat.
Proof.
  unfold _build_url_filters. split.
  - destruct (no_parent (_args b)); reflexivity.
  - intros k. destruct (no_parent (_args b)); destruct k; reflexivity.
Qed.

(** ** File writer *)

(** C2: one writer is chosen.  With [delete_after] it is the null writer.
    Otherwise, under [recursive], [page_requisites] or [continue_download]
    it is the overwriting writer when [clobber_method] is ['disable'] and
    the ignoring writer when it is not; failing those, the timestamping
    writer under [timestamping] and the anti-clobber writer in what
    remains. *)
Theorem file_writer_selection (b : Builder) :
  is_Some (_classes b !! "PathNamer") ->
  let a := _args b in
  exists w, _build_file_writer b = Ok w /\
    (delete_after a = true -> w = NullWriter) /\
    (delete_after a = false ->
     recursive a = true \/ page_requisites a = true
       \/ continue_download a = true ->
     (clobber_method a = Some "disable" ->
        writer_file_class w = Some OverwriteFileWriter) /\
     (clobber_method a <> Some "disable" ->
        writer_file_class w = Some IgnoreFileWriter)) /\
    (delete_after a = false -> recursive a = false ->
     page_requisites a = false -> continue_download a = false ->
     (timestamping a = true ->
        writer_file_class w = Some TimestampingFileWriter) /\
     (timestamping a = false ->
        writer_file_class w = Some AntiClobberFileWriter)).
Proof.
  intros [cls Hcls] a. unfold _build_file_writer. fold a.
  destruct (delete_after a) eqn:Hdel.
  { exists NullWriter. repeat split; intros; congruence. }
  rewrite (get_class_Some _ _ _ Hcls), bind_Ok.
  eexists. split; [reflexivity|]. simpl.
  split; [discriminate|]. split.
  - intros _ Hany.
    assert (recursive a || page_requisites a || continue_download a = true)
      as -> by (destruct Hany as [-> | [-> | ->]];
                destruct (recursive a), (page_requisites a); reflexivity).
    split; intros Hc.
    + apply str_eq_true in Hc. now rewrite Hc.
    + apply str_eq_false in Hc. now rewrite Hc.
  - intros _ -> -> ->. simpl. split; intros ->; reflexivity.
Qed.

(** ** Document scrapers *)

(** C9: the registry literal binds ['CSSScraper'] to the [Engine] class,
    not to [CSSScraper]; the scrapers given to the processor are built by
    calling [HTMLScraper] and [CSSScraper] themselves, so whatever the
    registry holds the list is an [HTMLScraper] instance followed by a
    [CSSScraper] instance. *)
Theorem css_scraper_bypasses_registry :
  initial_classes !! "CSSScraper" = Some Engine_class /\
  Engine_class <> CSSScraper_class /\
  forall b : Builder,
    map scraper_class (_build_document_scrapers b)
      = [HTMLScraper_class; CSSScraper_class] /\
    CSSScraper ∈ _build_document_scrapers b /\
    (forall classes,
       _build_document_scrapers
         {| _args := _args b; _classes := classes;
            _url_infos := _url_infos b |}
       = _build_document_scrapers b) /\
    (forall p, _build_processor b = Ok p ->
       document_scrapers p = _build_document_scrapers b).
Proof.
  split; [reflexivity|]. split; [discriminate|].
  intros b. split; [reflexivity|]. split.
  { unfold _build_document_scrapers. apply list_elem_of_In. simpl. auto. }
  split; [reflexivity|].
  intros p Hp. unfold _build_processor in Hp.
  apply bind_Ok_inv in Hp as (w & _ & Hp).
  apply bind_Ok_inv in Hp as (wc & _ & Hp).
  apply bind_Ok_inv in Hp as (pc & _ & Hp).
  injection Hp as <-. reflexivity.
Qed.

(** ** Resolver and time-outs *)

(** A number option is true when it is a number other than zero. *)
Lemma truthy_num_true o :
  truthy_num o = true <-> exists q, o = Some q /\ ~ (q == 0)%Q.
Proof.
  unused. destruct o as [q|]; simpl.
  - rewrite negb_true_iff. split.
    + intros H. exists q. split; [reflexivity|].
      now apply Qeq_bool_neq.
    + intros (q' & [= <-] & Hq).
      destruct (Qeq_bool q 0) eqn:Hb; [|reflexivity].
      now apply Qeq_bool_iff in Hb.
  - split; [discriminate|]. now intros (q & [=] & _).
Qed.

Lemma truthy_num_false o :
  truthy_num o = false <->
  o = None \/ exists q, o = Some q /\ (q == 0)%Q.
Proof.
  unused. destruct o as [q|]; simpl.
  - rewrite negb_false_iff, Qeq_bool_iff. split.
    + intros H. right. eauto.
    + intros [[=]|(q' & [= <-] & Hq)]. exact Hq.
  - split; [auto | reflexivity].
Qed.

Lemma timeouts_truthy a :
  truthy_num (timeout a) = true ->
  timeouts a = (timeout a, timeout a, timeout a).
Proof. unfold timeouts. now intros ->. Qed.

Lemma timeouts_falsy a :
  truthy_num (timeout a) = false ->
  timeouts a = (dns_timeout a, connect_timeout a, read_timeout a).
Proof. unfold timeouts. now intros ->. Qed.

(** What a client returned by [_build_http_client] is made of. *)
Lemma _build_http_client_Ok b client :
  _build_http_client b = Ok client ->
  exists r rec,
    build_resolver b = Ok r /\ _build_recorder b = Ok rec /\
    recorder client = rec /\
    client_connection_factory client =
      {| cf_resolver := r;
         cf_connect_timeout := snd (fst (timeouts (_args b)));
         cf_read_timeout := snd (timeouts (_args b)) |}.
Proof.
  unfold _build_http_client.
  destruct (timeouts (_args b)) as [[dns conn] rd] eqn:Ht.
  intros H.
  apply bind_Ok_inv in H as (r & Hr & H).
  apply bind_Ok_inv in H as (pc & _ & H).
  apply bind_Ok_inv in H as (rec & Hrec & H).
  apply bind_Ok_inv in H as (cc & _ & H).
  injection H as <-. exists r, rec. auto.
Qed.

(** The resolver is built whenever the registry is complete. *)
Lemma build_resolver_returns b :
  complete (_classes b) -> exists r, build_resolver b = Ok r.
Proof.
  intros Hc. unfold build_resolver.
  destruct (timeouts (_args b)) as [[dns conn] rd].
  destruct (complete_get b "Resolver" Hc) as [cls ->]; [now eexists|].
  rewrite bind_Ok. eauto.
Qed.

(** C3, as amended: the resolver is built with [[IPv4]] when
    [inet_family] is ['IPv4'], [[IPv6]] when it is ['IPv6'], and otherwise
    [[IPv6; IPv4]] when [prefer_family] is ['IPv6'] and [[IPv4; IPv6]] when
    it is not; [rotate] is [rotate_dns]; the time-out is [timeout] when
    that is a number other than zero, and [dns_timeout] when [timeout] is
    absent or zero.  It is the resolver of any client the builder
    returns. *)
Theorem resolver_construction (b : Builder) (cls : Class) :
  _classes b !! "Resolver" = Some cls ->
  let a := _args b in
  exists r, build_resolver b = Ok r /\
    resolver_cls r = cls /\
    (inet_family a = Some "IPv4" -> families r = [IPv4]) /\
    (inet_family a = Some "IPv6" -> families r = [IPv6]) /\
    (inet_family a <> Some "IPv4" -> inet_family a <> Some "IPv6" ->
       (prefer_family a = Some "IPv6" -> families r = [IPv6; IPv4]) /\
       (prefer_family a <> Some "IPv6" -> families r = [IPv4; IPv6])) /\
    rotate r = rotate_dns a /\
    (forall q, timeout a = Some q -> ~ (q == 0)%Q ->
       resolver_timeout r = Some q) /\
    (timeout a = None \/ (exists q, timeout a = Some q /\ (q == 0)%Q) ->
       resolver_timeout r = dns_timeout a) /\
    (forall client, _build_http_client b = Ok client ->
       cf_resolver (client_connection_factory client) = r).
Proof.
  intros Hcls a. unfold build_resolver. fold a.
  rewrite (get_class_Some _ _ _ Hcls).
  destruct (timeouts a) as [[dns conn] rd] eqn:Ht. rewrite bind_Ok.
  eexists. split; [reflexivity|]. simpl. unfold resolver_families.
  split; [reflexivity|].
  split. { intros H. apply str_eq_true in H. now rewrite H. }
  split. { intros H. rewrite H. reflexivity. }
  split.
  { intros H4 H6. apply str_eq_false in H4, H6. rewrite H4, H6.
    split; intros Hp.
    - apply str_eq_true in Hp. now rewrite Hp.
    - apply str_eq_false in Hp. now rewrite Hp. }
  split; [reflexivity|].
  split.
  { intros q Hq Hnz.
    assert (truthy_num (timeout a) = true) as H
      by (apply truthy_num_true; eauto).
    rewrite (timeouts_truthy _ H) in Ht. congruence. }
  split.
  { intros Hz. apply truthy_num_false in Hz.
    rewrite (timeouts_falsy _ Hz) in Ht. congruence. }
  intros client Hclient.
  apply _build_http_client_Ok in Hclient as (r & rec & Hr & _ & _ & ->).
  simpl. unfold build_resolver in Hr. fold a in Hr.
  rewrite Ht, (get_class_Some _ _ _ Hcls), bind_Ok in Hr.
  now injection Hr as <-.
Qed.

(** A connection made by the factory carries what the factory captured. *)
Lemma call_connection_factory_Ok b cf ca conn :
  call_connection_factory b cf ca = Ok conn ->
  connection_resolver conn = cf_resolver cf /\
  connection_connect_timeout conn = cf_connect_timeout cf /\
  connection_read_timeout conn = cf_read_timeout cf /\
  connection_keep_alive conn = http_keep_alive (_args b).
Proof.
  unfold call_connection_factory. intros H.
  apply bind_Ok_inv in H as (cls & _ & H).
  destruct (has_key _ _); [discriminate|].
  injection H as <-. auto.
Qed.

(** The factory does make a connection unless the caller passes one of its
    own keywords. *)
Lemma call_connection_factory_returns b cf ca :
  complete (_classes b) ->
  has_key ["resolver"; "connect_timeout"; "read_timeout"; "keep_alive"]
    (keywords ca) = false ->
  exists conn, call_connection_factory b cf ca = Ok conn.
Proof.
  intros Hc Hk. unfold call_connection_factory.
  destruct (complete_get b "Connection" Hc) as [cls ->]; [now eexists|].
  rewrite bind_Ok, Hk. eauto.
Qed.

(** C10: when [timeout] is a number other than zero, the resolver's
    time-out and the connect and read time-outs of every connection the
    factory makes are that one value, whatever [dns_timeout],
    [connect_timeout] and [read_timeout] say; when [timeout] is absent or
    zero, each of the three is the option of its own name. *)
Theorem umbrella_timeout (b : Builder) (client : Client) :
  _build_http_client b = Ok client ->
  let a := _args b in
  let cf := client_connection_factory client in
  (forall q, timeout a = Some q -> ~ (q == 0)%Q ->
     resolver_timeout (cf_resolver cf) = Some q /\
     forall b' ca conn, call_connection_factory b' cf ca = Ok conn ->
       resolver_timeout (connection_resolver conn) = Some q /\
       connection_connect_timeout conn = Some q /\
       connection_read_timeout conn = Some q) /\
  (timeout a = None \/ (exists q, timeout a = Some q /\ (q == 0)%Q) ->
     resolver_timeout (cf_resolver cf) = dns_timeout a /\
     forall b' ca conn, call_connection_factory b' cf ca = Ok conn ->
       resolver_timeout (connection_resolver conn) = dns_timeout a /\
       connection_connect_timeout conn = connect_timeout a /\
       connection_read_timeout conn = read_timeout a).
Proof.
  intros Hclient a cf.
  destruct (_build_http_client_Ok _ _ Hclient) as (r & rec & Hr & _ & _ & Hcf).
  fold cf a in Hcf.
  assert (resolver_timeout r = fst (fst (timeouts a))) as Hdns.
  { unfold build_resolver in Hr. fold a in Hr.
    destruct (timeouts a) as [[dns conn] rd].
    apply bind_Ok_inv in Hr as (cls & _ & Hr). now injection Hr as <-. }
  split.
  - intros q Hq Hnz.
    assert (truthy_num (timeout a) = true) as Ht
      by (apply truthy_num_true; eauto).
    rewrite (timeouts_truthy _ Ht) in *. simpl in *. rewrite Hcf. simpl.
    rewrite Hq in *. split; [assumption|].
    intros b' ca conn Hconn.
    apply call_connection_factory_Ok in Hconn as (-> & -> & -> & _).
    simpl. auto.
  - intros Hz. apply truthy_num_false in Hz.
    rewrite (timeouts_falsy _ Hz) in *. simpl in *. rewrite Hcf. simpl.
    split; [assumption|].
    intros b' ca conn Hconn.
    apply call_connection_factory_Ok in Hconn as (-> & -> & -> & _).
    simpl. auto.
Qed.


(** ** Strings *)

Lemma partition_spec sep s a b :
  partition sep s = Some (a, b) ->
  s = a ++ String sep b /\ contains sep a = false.
Proof.
  revert a b. induction s as [|c s IH]; intros a b; simpl; [discriminate|].
  destruct (Ascii.eqb_spec c sep) as [->|Hne].
  - intros [= <- <-]. auto.
  - destruct (partition sep s) as [[a' b']|]; [|discriminate].
    intros [= <- <-]. destruct (IH a' b' eq_refl) as [-> Hc].
    split; [reflexivity|].
    unfold contains in *. simpl.
    destruct (Ascii.eqb_spec c sep); [contradiction|].
    destruct (partition sep a') as [[? ?]|]; [discriminate | reflexivity].
Qed.

Lemma partition_complete sep a b :
  contains sep a = false -> partition sep (a ++ String sep b) = Some (a, b).
Proof.
  unfold contains. induction a as [|c a IH]; simpl.
  - now rewrite Ascii.eqb_refl.
  - destruct (Ascii.eqb c sep); [discriminate|].
    destruct (partition sep a) as [[? ?]|] eqn:Hp; [discriminate|].
    intros _. now rewrite IH.
Qed.

Lemma contains_partition sep s :
  contains sep s = true -> exists a b, partition sep s = Some (a, b).
Proof.
  unfold contains. destruct (partition sep s) as [[a b]|]; [eauto | discriminate].
Qed.

Lemma lstrip_spec s :
  exists l, s = l ++ lstrip s /\ all_space l = true
            /\ head_space (lstrip s) = false.
Proof.
  induction s as [|c s (l & Hs & Hl & Hh)]; [now exists ""|].
  simpl. destruct (isspace c) eqn:Hc.
  - exists (String c l). simpl. rewrite Hc, Hl.
    split; [now rewrite Hs at 1 | auto].
  - exists "". simpl. auto.
Qed.

Lemma rstrip_spec s :
  exists r, s = rstrip s ++ r /\ all_space r = true
            /\ last_space (rstrip s) = false.
Proof.
  induction s as [|c s (r & Hs & Hr & Hl)]; [now exists ""|].
  simpl. destruct (rstrip s) as [|d t] eqn:Ht.
  - change (s = r) in Hs. subst r. destruct (isspace c) eqn:Hc.
    + exists (String c s). simpl. now rewrite Hc, Hr.
    + exists s. simpl. auto.
  - exists r. split; [now rewrite Hs at 1 | auto].
Qed.

Lemma rstrip_head s : head_space s = false -> head_space (rstrip s) = false.
Proof.
  destruct s as [|c s]; [reflexivity|]. simpl. intros Hc.
  destruct (rstrip s); [rewrite Hc|]; assumption.
Qed.

(** [strip] removes a run of white space at each end and leaves none. *)
Lemma strip_spec s :
  exists l r, s = l ++ strip s ++ r /\
    all_space l = true /\ all_space r = true /\
    head_space (strip s) = false /\ last_space (strip s) = false.
Proof.
  destruct (lstrip_spec s) as (l & Hs & Hl & Hh).
  destruct (rstrip_spec (lstrip s)) as (r & Hs' & Hr & Hlast).
  exists l, r. unfold strip. rewrite <- Hs'.
  repeat split; auto using rstrip_head.
Qed.

Lemma header_pair_spec line p :
  header_pair line = Some p <->
  exists name value,
    line = name ++ ":" ++ value /\ contains ":" name = false /\
    p = (strip name, strip value).
Proof.
  unfold header_pair. split.
  - destruct (partition ":" line) as [[n v]|] eqn:Hp; [|discriminate].
    intros [= <-]. apply partition_spec in Hp as [-> Hc]. eauto.
  - intros (n & v & -> & Hc & ->).
    change (n ++ ":" ++ v) with (n ++ String ":" v).
    now rewrite (partition_complete _ _ _ Hc).
Qed.

Lemma header_pairs_exist lines :
  forallb (contains ":") lines = true ->
  exists pairs, Forall2 (fun h p => header_pair h = Some p) lines pairs.
Proof.
  induction lines as [|h lines IH]; simpl; [eauto|].
  intros [Hh Hl]%andb_prop. destruct (IH Hl) as [pairs Hp].
  destruct (contains_partition _ _ Hh) as (n & v & Hn).
  exists ((strip n, strip v) :: pairs). constructor; [|assumption].
  unfold header_pair. now rewrite Hn.
Qed.

Lemma unpack_header h name value :
  partition ":" h = Some (name, value) ->
  unpack2 (split1 ":" h) = Ok (name, value).
Proof. unfold split1. now intros ->. Qed.

Lemma unpack_header_fails h :
  contains ":" h = false -> unpack2 (split1 ":" h) = Raise ValueError.
Proof.
  unfold contains, split1.
  destruct (partition ":" h) as [[? ?]|]; [discriminate | reflexivity].
Qed.

(** ** Recorder *)

Lemma append_warc_headers_Ok headers pairs extra_fields :
  Forall2 (fun h p => header_pair h = Some p) headers pairs ->
  append_warc_headers extra_fields headers = Ok (extra_fields ++ pairs)%list.
Proof.
  intros H. revert extra_fields.
  induction H as [|h p hs ps Hh _ IH]; intros acc; simpl.
  - now rewrite app_nil_r.
  - unfold header_pair in Hh.
    destruct (partition ":" h) as [[n v]|] eqn:Hp; [|discriminate].
    injection Hh as <-.
    rewrite (unpack_header _ _ _ Hp), bind_Ok, IH, <- app_assoc.
    reflexivity.
Qed.

(** A header line without a colon stops the build. *)
Lemma append_warc_headers_raises headers extra_fields :
  forallb (contains ":") headers = false ->
  append_warc_headers extra_fields headers = Raise ValueError.
Proof.
  revert extra_fields.
  induction headers as [|h hs IH]; intros acc; simpl; [discriminate|].
  destruct (contains ":" h) eqn:Hh; simpl.
  - intros Hhs. destruct (contains_partition _ _ Hh) as (n & v & Hp).
    rewrite (unpack_header _ _ _ Hp), bind_Ok. now apply IH.
  - intros _. now rewrite (unpack_header_fails _ Hh).
Qed.

(** The sinks that follow the archive writer. *)
Lemma _build_recorder_standard b :
  standard (_classes b) ->
  let a := _args b in
  let tail :=
    ((if server_response a
      then [PrintServerResponseRecorder PrintServerResponseRecorder_class]
      else []) ++
     (if in_tuple (verbosity a) [Some INFO; Some DEBUG; Some WARN; None]
      then [ProgressRecorder ProgressRecorder_class]
      else []))%list in
  match nonempty (warc_file a) with
  | Some f =>
      forall pairs,
        Forall2 (fun h p => header_pair h = Some p) (warc_header a) pairs ->
        _build_recorder b = Ok {|
          demux_cls := DemuxRecorder_class;
          recorders :=
            WARCRecorder WARCRecorder_class
              (f ++ if no_warc_compression a then ".warc" else ".warc.gz")
              (negb (no_warc_compression a))
              ([("robots", if robots a then "on" else "off");
                ("wpull-arguments", Namespace_str a)] ++ pairs)%list
              (warc_tempdir a) (warc_log a) (warc_append a) :: tail |}
  | None =>
      _build_recorder b =
        Ok {| demux_cls := DemuxRecorder_class; recorders := tail |}
  end.
Proof.
  intros Hstd a tail. unfold _build_recorder. fold a.
  pose proof (standard_get b "WARCRecorder" _ Hstd eq_refl eq_refl) as Hw.
  pose proof (standard_get b "PrintServerResponseRecorder" _ Hstd
                eq_refl eq_refl) as Hp.
  pose proof (standard_get b "ProgressRecorder" _ Hstd eq_refl eq_refl) as Hg.
  pose proof (standard_get b "DemuxRecorder" _ Hstd eq_refl eq_refl) as Hd.
  destruct (nonempty (warc_file a)) as [f|].
  - intros pairs Hpairs.
    rewrite (append_warc_headers_Ok _ _ _ Hpairs), bind_Ok, Hw, !bind_Ok.
    unfold tail.
    destruct (server_response a), (in_tuple (verbosity a) _);
      rewrite ?Hp, ?Hg, ?Hd, ?bind_Ok; simpl;
      rewrite ?Hp, ?Hg, ?Hd, ?bind_Ok; simpl;
      destruct (no_warc_compression a); reflexivity.
  - rewrite bind_Ok. unfold tail.
    destruct (server_response a), (in_tuple (verbosity a) _);
      rewrite ?Hp, ?Hg, ?Hd, ?bind_Ok; simpl;
      rewrite ?Hp, ?Hg, ?Hd, ?bind_Ok; reflexivity.
Qed.


Lemma in_tuple_levels o :
  in_tuple o [Some INFO; Some DEBUG; Some WARN; None] = true <->
  o = Some INFO \/ o = Some DEBUG \/ o = Some WARN \/ o = None.
Proof.
  unused.
  unfold in_tuple. rewrite bool_decide_eq_true, !elem_of_cons, elem_of_nil.
  tauto.
Qed.

(** A malformed archive header makes [_build_recorder] raise, so no
    recorder reaches the client. *)
Lemma _build_recorder_bad_header b :
  warc_headers_ok (_args b) = false -> _build_recorder b = Raise ValueError.
Proof.
  unfold warc_headers_ok, _build_recorder.
  intros [Ht Hh]%orb_false_elim. apply negb_false_iff, truthy_nonempty in Ht.
  destruct Ht as [f ->]. now rewrite (append_warc_headers_raises _ _ Hh).
Qed.

(** [_build_http_client] returns whenever the registry is standard and
    the archive headers are well formed. *)
Lemma _build_http_client_returns b :
  standard (_classes b) -> warc_headers_ok (_args b) = true ->
  exists client, _build_http_client b = Ok client.
Proof.
  intros Hstd Hok. unfold _build_http_client.
  destruct (build_resolver_returns b (proj1 Hstd)) as [r Hr].
  destruct (timeouts (_args b)) as [[dns conn] rd].
  rewrite Hr, bind_Ok.
  rewrite (standard_get b "ConnectionPool" _ Hstd eq_refl eq_refl), bind_Ok.
  assert (exists rec, _build_recorder b = Ok rec) as [rec ->].
  { pose proof (_build_recorder_standard b Hstd) as Hrec. cbv zeta in Hrec.
    unfold warc_headers_ok in Hok.
    destruct (nonempty (warc_file (_args b))) as [f|] eqn:Hf; [|eauto].
    assert (truthy_str (warc_file (_args b)) = true) as Ht
      by (apply truthy_nonempty; rewrite Hf; eauto).
    rewrite Ht in Hok. simpl in Hok.
    destruct (header_pairs_exist _ Hok) as [pairs Hpairs]. eauto. }
  rewrite bind_Ok.
  rewrite (standard_get b "Client" _ Hstd eq_refl eq_refl), bind_Ok.
  eauto.
Qed.

(** C5: the recorder given to the HTTP client is a [DemuxRecorder] over a
    list of sinks in which the archive writer occurs exactly when
    [warc_file] is given, the server-response printer exactly when
    [server_response] is set, and the progress meter exactly when
    [verbosity] is INFO, DEBUG, WARN or [None]. *)
Theorem recorder_is_demux_over_selected_sinks (b : Builder) :
  standard (_classes b) -> warc_headers_ok (_args b) = true ->
  let a := _args b in
  exists rec, _build_recorder b = Ok rec /\
    demux_cls rec = DemuxRecorder_class /\
    (existsb is_warc (recorders rec) = true <->
       truthy_str (warc_file a) = true) /\
    (existsb is_print_server_response (recorders rec) = true <->
       server_response a = true) /\
    (existsb is_progress (recorders rec) = true <->
       verbosity a = Some INFO \/ verbosity a = Some DEBUG \/
       verbosity a = Some WARN \/ verbosity a = None) /\
    (forall client, _build_http_client b = Ok client ->
       recorder client = rec).
Proof.
  intros Hstd Hok a.
  pose proof (_build_recorder_standard b Hstd) as Hrec. cbv zeta in Hrec.
  fold a in Hrec. unfold warc_headers_ok in Hok. fold a in Hok.
  assert (exists rec, _build_recorder b = Ok rec /\
            demux_cls rec = DemuxRecorder_class /\
            existsb is_warc (recorders rec) = truthy_str (warc_file a) /\
            existsb is_print_server_response (recorders rec)
              = server_response a /\
            existsb is_progress (recorders rec)
              = in_tuple (verbosity a) [Some INFO; Some DEBUG; Some WARN; None])
    as (rec & Hb & Hd & Hw & Hp & Hg).
  { destruct (nonempty (warc_file a)) as [f|] eqn:Hf.
    - assert (truthy_str (warc_file a) = true) as Ht
        by (apply truthy_nonempty; rewrite Hf; eauto).
      rewrite Ht in Hok |- *. simpl in Hok.
      destruct (header_pairs_exist _ Hok) as [pairs Hpairs].
      eexists. split; [exact (Hrec pairs Hpairs)|]. simpl.
      destruct (server_response a), (in_tuple (verbosity a) _); auto.
    - apply falsy_nonempty in Hf. rewrite Hf.
      eexists. split; [exact Hrec|]. simpl.
      destruct (server_response a), (in_tuple (verbosity a) _); auto. }
  exists rec. rewrite Hw, Hp, Hg.
  split; [assumption|]. split; [assumption|].
  split; [reflexivity|]. split; [reflexivity|].
  split; [apply in_tuple_levels|].
  intros client Hc.
  apply _build_http_client_Ok in Hc as (_ & rec' & _ & Hrec' & <- & _).
  congruence.
Qed.

(** C6: with an archive file named [f], the archive writer is given the
    path [f ++ ".warc.gz"] and [compress = true] unless
    [no_warc_compression] is set, and then [f ++ ".warc"] and
    [compress = false]; its extra fields are [robots] (on or off) and
    [wpull-arguments] (the argument string), then one field per header
    string, cut at its first colon, name and value without the white space
    at their ends; [appending] is [warc_append]. *)
Theorem warc_recorder_arguments (b : Builder) (f : string) :
  standard (_classes b) ->
  nonempty (warc_file (_args b)) = Some f ->
  forallb (contains ":") (warc_header (_args b)) = true ->
  let a := _args b in
  exists rec path compress extra temp log appending rest,
    _build_recorder b = Ok rec /\
    recorders rec =
      WARCRecorder WARCRecorder_class path compress
        (("robots", if robots a then "on" else "off")
         :: ("wpull-arguments", Namespace_str a) :: extra)
        temp log appending :: rest /\
    existsb is_warc rest = false /\
    (no_warc_compression a = false ->
       path = f ++ ".warc.gz" /\ compress = true) /\
    (no_warc_compression a = true ->
       path = f ++ ".warc" /\ compress = false) /\
    Forall2 (fun header_string field =>
               exists name value,
                 header_string = name ++ ":" ++ value /\
                 contains ":" name = false /\
                 field = (strip name, strip value) /\
                 stripped_of name (fst field) /\
                 stripped_of value (snd field))
            (warc_header a) extra /\
    appending = warc_append a.
Proof.
  intros Hstd Hf Hh a.
  pose proof (_build_recorder_standard b Hstd) as Hrec. cbv zeta in Hrec.
  fold a in Hrec, Hf, Hh. rewrite Hf in Hrec.
  destruct (header_pairs_exist _ Hh) as [pairs Hpairs].
  do 8 eexists. split; [exact (Hrec pairs Hpairs)|].
  split; [reflexivity|].
  split. { destruct (server_response a), (in_tuple (verbosity a) _); auto. }
  split. { now intros ->. }
  split. { now intros ->. }
  split; [|reflexivity].
  eapply Forall2_impl; [exact Hpairs|].
  intros h p Hp. apply header_pair_spec in Hp as (name & value & -> & Hc & ->).
  exists name, value. simpl.
  repeat split; try assumption; apply strip_spec.
Qed.

(** ** Stateful computations *)

Lemma M_bind_inv {A B} (m : M A) (f : A -> M B) w r w' :
  (m ≫= f) w = (r, w') ->
  (exists x w1, m w = (Ok x, w1) /\ f x w1 = (r, w')) \/
  (exists e, m w = (Raise e, w') /\ r = Raise e).
Proof.
  unfold mbind, M_bind. destruct (m w) as [[x|e] w1]; intros H.
  - left. eauto.
  - right. injection H as <- <-. eauto.
Qed.

(** ** Script hooks *)

(** C8: installing a hook script (a script is named and its file opens)
    rebinds ['Engine'], ['WebProcessor'] and ['Resolver'] to the factories
    of the hook environment and leaves every other entry as it was; when no
    script is named the builder is not touched. *)
Theorem hook_script_rebinds_three_entries (w : World) (r : Result unit)
    (w' : World) :
  _install_script_hooks w = (r, w') ->
  let a := _args (self w) in
  let m := _classes (self w) in
  let m' := _classes (self w') in
  let h := HookEnvironment_new in
  (forall filename in_file,
     nonempty (python_script a) = Some filename ->
     open_ filename = Ok in_file ->
     m' !! "Engine" = Some (engine_factory h) /\
     m' !! "WebProcessor" = Some (web_processor_factory h) /\
     m' !! "Resolver" = Some (resolver_factory h) /\
     (forall key, key ∉ hookable -> m' !! key = m !! key) /\
     _args (self w') = a /\ _url_infos (self w') = _url_infos (self w)) /\
  (nonempty (python_script a) = None -> self w' = self w) /\
  (forall filename e,
     nonempty (python_script a) = Some filename ->
     open_ filename = Raise e -> self w' = self w).
Proof.
  unused.
  intros Hrun a m m' h. unfold _install_script_hooks, with_self in Hrun.
  fold a in Hrun. subst m m'.
  split; [|split].
  - intros filename in_file Hname Hopen. rewrite Hname in Hrun.
    unfold _install_python_script, mbind, M_bind, emit, lift, set_class
      in Hrun.
    simpl in Hrun. rewrite Hopen in Hrun. simpl in Hrun.
    assert (self w' =
              {| _args := a;
                 _classes :=
                   <["Resolver" := resolver_factory h]>
                     (<["WebProcessor" := web_processor_factory h]>
                        (<["Engine" := engine_factory h]> (_classes (self w))));
                 _url_infos := _url_infos (self w) |}) as ->.
    { destruct in_file as [text|e]; simpl in Hrun;
        [destruct (exec_ text filename HookEnvironment_new)|];
        now injection Hrun as _ <-. }
    simpl. repeat split.
    + do 2 (rewrite lookup_insert_ne by done). apply lookup_insert_eq.
    + rewrite lookup_insert_ne by done. apply lookup_insert_eq.
    + apply lookup_insert_eq.
    + intros key Hkey. unfold hookable in Hkey.
      rewrite !lookup_insert_ne; [reflexivity| | |];
        intros <-; apply Hkey; set_solver.
  - intros Hname. rewrite Hname in Hrun. now injection Hrun as _ <-.
  - intros filename e Hname Hopen. rewrite Hname in Hrun.
    unfold _install_python_script, mbind, M_bind, emit, lift in Hrun.
    simpl in Hrun. rewrite Hopen in Hrun. now injection Hrun as _ <-.
Qed.


(** ** Seeds and the URL table *)

Lemma mapM_Ok {A B} (f : A -> Result B) (l : list A) (k : list B) :
  mapM f l = Ok k <-> Forall2 (fun x y => f x = Ok y) l k.
Proof.
  revert k. induction l as [|x l IH]; intros k; simpl.
  - split; [intros [= <-]; constructor | now inversion 1].
  - split.
    + intros (y & Hy & H)%bind_Ok_inv.
      apply bind_Ok_inv in H as (k' & Hk' & [= <-]).
      constructor; [assumption | now apply IH].
    + inversion 1 as [|? y ? k' Hy Hk']; subst.
      apply IH in Hk'. now rewrite Hy, bind_Ok, Hk'.
Qed.

(** What a freshly constructed builder holds. *)
Lemma __init___Ok args b :
  __init__ args = Ok b ->
  _args b = args /\ _classes b = initial_classes /\
  Forall2 (fun url_string url_info =>
             class_parse URLInfo_class url_string "http" = Ok url_info)
          (url_string_iter args) (_url_infos b).
Proof.
  unfold __init__, _build_input_urls.
  intros (infos & Hinfos & [= <-])%bind_Ok_inv. simpl.
  split; [reflexivity|]. split; [reflexivity|].
  apply mapM_Ok in Hinfos.
  eapply Forall2_impl; [exact Hinfos|]. intros x y H. exact H.
Qed.

Lemma silent_ret {A} (x : A) : silent (mret x).
Proof.
  intros w r w' [= <- <-]. repeat split. exists []. now rewrite app_nil_r.
Qed.

Lemma silent_pass : silent pass.
Proof. apply silent_ret. Qed.

Lemma silent_lift {A} (r : Result A) : silent (lift r).
Proof.
  intros w r' w' [= <- <-]. repeat split. exists []. now rewrite app_nil_r.
Qed.

Lemma silent_emit e : is_add e = false -> is_run e = false -> silent (emit e).
Proof.
  intros Ha Hr w r w' [= <- <-]. simpl. repeat split.
  exists [e]. destruct e; try discriminate; auto.
Qed.

Lemma silent_set_class key cls : silent (set_class key cls).
Proof.
  intros w r w' [= <- <-]. simpl. repeat split.
  exists []. now rewrite app_nil_r.
Qed.

Lemma silent_bind {A B} (m : M A) (f : A -> M B) :
  silent m -> (forall x, silent (f x)) -> silent (m ≫= f).
Proof.
  intros Hm Hf w r w' H.
  apply M_bind_inv in H as [(x & w1 & H1 & H2)|(e & H1 & _)].
  - destruct (Hm _ _ _ H1) as (Ha1 & Hu1 & evs1 & Ht1 & Hadd1 & Hrun1).
    destruct (Hf x _ _ _ H2) as (Ha2 & Hu2 & evs2 & Ht2 & Hadd2 & Hrun2).
    split; [congruence|]. split; [congruence|].
    exists (evs1 ++ evs2)%list. rewrite Ht2, Ht1, <- app_assoc.
    unfold adds, runs in *. rewrite !omap_app.
    now rewrite Hadd1, Hadd2, Hrun1, Hrun2.
  - exact (Hm _ _ _ H1).
Qed.

Lemma silent_with_self {A} (f : Builder -> M A) :
  (forall b, silent (f b)) -> silent (with_self f).
Proof. intros Hf w r w' H. exact (Hf _ _ _ _ H). Qed.

Lemma silent_read {A} (f : Builder -> Result A) : silent (read f).
Proof. apply silent_with_self. intros b. apply silent_lift. Qed.

Create HintDb silent.
#[local] Hint Resolve silent_ret silent_pass silent_lift silent_set_class
  silent_read : silent.
#[local] Hint Extern 2 (silent (emit _)) =>
  apply silent_emit; reflexivity : silent.
#[local] Hint Extern 3 (silent (_ ≫= _)) =>
  apply silent_bind; [|intros ?] : silent.
#[local] Hint Extern 3 (silent (with_self _)) =>
  apply silent_with_self; intros ? : silent.

Lemma silent__setup_logging : silent _setup_logging.
Proof.
  unfold _setup_logging. apply silent_with_self. intros b.
  apply silent_bind; [auto with silent|]. intros _.
  destruct (num_eq _ _); auto with silent.
Qed.

Lemma silent_add_file_handler args filename mode :
  silent (add_file_handler args filename mode).
Proof. unfold add_file_handler. auto with silent. Qed.

Lemma silent__setup_file_logger : silent _setup_file_logger.
Proof.
  unfold _setup_file_logger. apply silent_with_self. intros b.
  cbv zeta.
  destruct (nonempty (output_file (_args b))),
    (nonempty (append_output (_args b)));
    auto using silent_add_file_handler, silent_pass.
Qed.

Lemma silent__install_script_hooks : silent _install_script_hooks.
Proof.
  unfold _install_script_hooks. apply silent_with_self. intros b.
  destruct (nonempty (python_script (_args b))); [|apply silent_pass].
  unfold _install_python_script. auto 20 with silent.
Qed.

(** A silent step followed by the rest: either the rest ran from a world
    with the same seeds and no insertion so far, or the step raised. *)
Lemma silent_then {A B} (m : M A) (f : A -> M B) w r w' :
  silent m -> (m ≫= f) w = (r, w') ->
  (exists x w1 evs,
     f x w1 = (r, w') /\
     _args (self w1) = _args (self w) /\
     _url_infos (self w1) = _url_infos (self w) /\
     trace w1 = (trace w ++ evs)%list /\ adds evs = [] /\ runs evs = []) \/
  (exists e evs,
     r = Raise e /\ _url_infos (self w') = _url_infos (self w) /\
     trace w' = (trace w ++ evs)%list /\ adds evs = [] /\ runs evs = []).
Proof.
  intros Hm H.
  apply M_bind_inv in H as [(x & w1 & H1 & H2)|(e & H1 & ->)].
  - destruct (Hm _ _ _ H1) as (Ha & Hu & evs & Ht & Hadd & Hrun).
    left. exists x, w1, evs. repeat split; assumption.
  - destruct (Hm _ _ _ H1) as (Ha & Hu & evs & Ht & Hadd & Hrun).
    right. exists e, evs. repeat split; auto.
Qed.

Lemma read_inv {A} (f : Builder -> Result A) w r w' :
  read f w = (r, w') -> w' = w /\ r = f (self w).
Proof. now intros [= <- <-]. Qed.

(** [_build_url_table] makes one insertion, of the seed URLs, unless the
    table class is missing. *)
Lemma _build_url_table_spec w r w' :
  _build_url_table w = (r, w') ->
  self w' = self w /\
  match r with
  | Ok table =>
      trace w' =
        (trace w ++ [EvURLTableAdd table (map url (_url_infos (self w)))])%list
  | Raise _ => trace w' = trace w
  end.
Proof.
  unfold _build_url_table, with_self, mbind, M_bind, lift, emit. simpl.
  destruct (get_class (self w) "URLTable"); intros [= <- <-]; auto.
Qed.

(** The trace of [build]: nothing is run; on success the last event is the
    one insertion of the seed URLs, into the table handed to the engine. *)
Lemma build_spec w r w' :
  build w = (r, w') ->
  let seeds := map url (_url_infos (self w)) in
  exists evs,
    trace w' = (trace w ++ evs)%list /\ runs evs = [] /\
    match r with
    | Ok engine =>
        exists pre,
          evs = (pre ++ [EvURLTableAdd (engine_url_table engine) seeds])%list
          /\ adds pre = []
    | Raise _ => adds evs = [] \/ adds evs = [seeds]
    end.
Proof.
  intros H seeds. unfold build in H.
  apply silent_then in H as
    [(_ & w1 & e1 & H & _ & Hu1 & Ht1 & Ha1 & Hr1)
    |(e & evs & -> & _ & Ht & Ha & Hr)];
    [|eauto 6 | apply silent__setup_logging].
  apply silent_then in H as
    [(_ & w2 & e2 & H & _ & Hu2 & Ht2 & Ha2 & Hr2)
    |(e & evs & -> & _ & Ht & Ha & Hr)];
    [| | apply silent__setup_file_logger].
  2:{ exists (e1 ++ evs)%list. rewrite Ht, Ht1, <- app_assoc.
      unfold adds, runs in *. rewrite !omap_app, Ha1, Ha, Hr1, Hr. auto. }
  apply silent_then in H as
    [(_ & w3 & e3 & H & _ & Hu3 & Ht3 & Ha3 & Hr3)
    |(e & evs & -> & _ & Ht & Ha & Hr)];
    [| | apply silent__install_script_hooks].
  2:{ exists (e1 ++ e2 ++ evs)%list. rewrite Ht, Ht2, Ht1, <- !app_assoc.
      unfold adds, runs in *.
      rewrite !omap_app, Ha1, Ha2, Ha, Hr1, Hr2, Hr. auto. }
  assert (_url_infos (self w3) = _url_infos (self w)) as Hu by congruence.
  assert (trace w3 = (trace w ++ e1 ++ e2 ++ e3)%list) as Ht
    by (rewrite Ht3, Ht2, Ht1, <- !app_assoc; reflexivity).
  assert (adds (e1 ++ e2 ++ e3) = [] /\ runs (e1 ++ e2 ++ e3) = [])
    as [Ha Hr]
    by (unfold adds, runs in *;
        rewrite !omap_app, Ha1, Ha2, Ha3, Hr1, Hr2, Hr3; auto).
  clear Ht1 Ht2 Ht3 Ha1 Ha2 Ha3 Hr1 Hr2 Hr3 Hu1 Hu2 Hu3.
  apply M_bind_inv in H as [(table & w4 & Htab & H)|(e & Htab & ->)].
  2:{ apply _build_url_table_spec in Htab as [_ Htr].
      exists (e1 ++ e2 ++ e3)%list. rewrite Htr. auto. }
  apply _build_url_table_spec in Htab as [Hself Htr].
  rewrite Hu in Htr. fold seeds in Htr.
  assert (trace w4 =
            (trace w ++ (e1 ++ e2 ++ e3) ++ [EvURLTableAdd table seeds])%list)
    as Ht4 by (rewrite Htr, Ht, <- !app_assoc; reflexivity).
  assert (runs ((e1 ++ e2 ++ e3) ++ [EvURLTableAdd table seeds]) = [])
    as Hr4 by (unfold runs in *; rewrite omap_app, Hr; reflexivity).
  assert (adds ((e1 ++ e2 ++ e3) ++ [EvURLTableAdd table seeds]) = [seeds])
    as Ha4 by (unfold adds in *; rewrite omap_app, Ha; reflexivity).
  set (evs := ((e1 ++ e2 ++ e3) ++ [EvURLTableAdd table seeds])%list) in *.
  exists evs.
  apply M_bind_inv in H as [(p & w5 & Hp & H)|(e & Hp & ->)];
    apply read_inv in Hp as [-> _]; [|auto].
  apply M_bind_inv in H as [(c & w6 & Hc & H)|(e & Hc & ->)];
    apply read_inv in Hc as [-> _]; [|auto].
  unfold with_self, mbind, M_bind, lift in H. simpl in H.
  destruct (get_class (self w4) "Engine"); injection H as <- <-; [|auto].
  split; [assumption|]. split; [assumption|].
  exists (e1 ++ e2 ++ e3)%list. auto.
Qed.

Lemma run_position l engine pre engine' post :
  runs l = [] ->
  (l ++ [EvRunSync engine])%list = (pre ++ EvRunSync engine' :: post)%list ->
  pre = l /\ post = [].
Proof.
  revert pre. induction l as [|x l IH]; intros [|p pre] Hr H; simpl in H.
  - now injection H as _ <-.
  - injection H as _ H. now destruct pre.
  - injection H as -> _. discriminate.
  - injection H as <- H.
    assert (runs l = []) as Hl by (destruct x; simpl in Hr; congruence).
    destruct (IH _ Hl H) as [-> ->]. auto.
Qed.

(** C4: the seeds are the command-line URLs followed by the lines of the
    input file when there is one, each parsed with default scheme ['http'];
    [build_and_run] inserts their URLs into the URL table in one [add]
    call, made during [build] and before the engine is run, and makes no
    other insertion. *)
Theorem seeds_inserted_once_before_run (args : Args) (b : Builder)
    (r : Result Z) (w : World) :
  __init__ args = Ok b ->
  build_and_run (start b) = (r, w) ->
  let seeds := map url (_url_infos b) in
  Forall2 (fun url_string url_info =>
             class_parse URLInfo_class url_string "http" = Ok url_info)
          (urls args ++ match input_file args with
                        | Some lines => lines
                        | None => []
                        end)%list
          (_url_infos b) /\
  (adds (trace w) = [] \/ adds (trace w) = [seeds]) /\
  (forall z, r = Ok z ->
     exists pre engine,
       trace w = (pre ++ [EvURLTableAdd (engine_url_table engine) seeds;
                          EvRunSync engine])%list /\
       adds pre = [] /\ runs pre = []) /\
  (forall pre engine post,
     trace w = (pre ++ EvRunSync engine :: post)%list ->
     adds pre = [seeds] /\ adds post = [] /\ runs pre = [] /\ runs post = []).
Proof.
  intros Hinit Hrun seeds.
  apply __init___Ok in Hinit as (_ & _ & Hseeds).
  split.
  { unfold url_string_iter in Hseeds.
    destruct (input_file args); [assumption | now rewrite app_nil_r]. }
  unfold build_and_run in Hrun.
  apply M_bind_inv in Hrun as [(engine & w1 & Hb & Hrun)|(e & Hb & ->)];
    apply build_spec in Hb as (evs & Ht & Hr & Hshape); simpl in Ht, Hshape;
    fold seeds in Hshape.
  - destruct Hshape as (pre & -> & Hpre).
    unfold mbind, M_bind, emit, lift in Hrun. simpl in Hrun.
    injection Hrun as <- <-. simpl. rewrite Ht.
    assert (runs pre = []) as Hrpre
      by (unfold runs in *; rewrite omap_app in Hr;
          now apply app_eq_nil in Hr as [? _]).
    assert (adds (pre ++ [EvURLTableAdd (engine_url_table engine) seeds])
              = [seeds]) as Hadds
      by (unfold adds in *; rewrite omap_app, Hpre; reflexivity).
    split; [|split].
    + right. unfold adds in *. rewrite omap_app, Hadds. reflexivity.
    + intros z _. exists pre, engine. rewrite <- app_assoc. auto.
    + intros pre' engine' post Heq.
      apply run_position in Heq as [-> ->]; auto.
  - rewrite Ht. simpl. split; [|split].
    + exact Hshape.
    + discriminate.
    + intros pre engine post Heq.
      rewrite Heq in Hr. unfold runs in Hr. rewrite omap_app in Hr.
      apply app_eq_nil in Hr as [_ Hr]. discriminate.
Qed.


(** ** Header fields and the request factory *)

Lemma same_name_refl n : same_name n n = true.
Proof. apply String.eqb_refl. Qed.

Lemma same_name_trans a b c :
  same_name a b = true -> same_name b c = true -> same_name a c = true.
Proof. unfold same_name. rewrite !String.eqb_eq. congruence. Qed.

Lemma same_name_sym a b : same_name a b = same_name b a.
Proof. apply String.eqb_sym. Qed.

Lemma fields_get_list_app name fs1 fs2 :
  fields_get_list name (fs1 ++ fs2)%list =
    (fields_get_list name fs1 ++ fields_get_list name fs2)%list.
Proof. unfold fields_get_list. now rewrite List.filter_app, map_app. Qed.

Lemma fields_get_list_setitem name value fs :
  fields_get_list name (fields_setitem name value fs) = [value].
Proof.
  unfold fields_setitem. rewrite fields_get_list_app.
  unfold fields_get_list at 2. simpl. rewrite same_name_refl. simpl.
  replace (fields_get_list name _) with (@nil string); [reflexivity|].
  unfold fields_get_list. induction fs as [|[k v] fs IH]; [reflexivity|].
  simpl. destruct (same_name k name) eqn:Hk; simpl; [assumption|].
  now rewrite Hk.
Qed.

Lemma fields_get_list_setitem_other name other value fs :
  same_name other name = false ->
  fields_get_list name (fields_setitem other value fs)
    = fields_get_list name fs.
Proof.
  intros Hne. unfold fields_setitem. rewrite fields_get_list_app.
  unfold fields_get_list at 2. simpl. rewrite Hne. simpl.
  rewrite app_nil_r. unfold fields_get_list. f_equal.
  induction fs as [|[k v] fs IH]; [reflexivity|]. simpl.
  destruct (same_name k other) eqn:Hko; simpl.
  - destruct (same_name k name) eqn:Hkn; [|assumption].
    rewrite same_name_sym in Hko.
    now rewrite (same_name_trans _ _ _ Hko Hkn) in Hne.
  - now rewrite IH.
Qed.

Lemma fields_contains_get_list name fs :
  fields_contains name fs = true <-> fields_get_list name fs <> [].
Proof.
  unfold fields_contains, fields_get_list.
  induction fs as [|[k v] fs IH]; simpl; [split; [discriminate | congruence]|].
  destruct (same_name k name); simpl; [split; [discriminate | reflexivity]|].
  exact IH.
Qed.

Lemma fields_contains_app name fs1 fs2 :
  fields_contains name (fs1 ++ fs2)%list
    = fields_contains name fs1 || fields_contains name fs2.
Proof. unfold fields_contains. apply existsb_app. Qed.

Lemma parse_headers_Ok headers pairs fs :
  Forall2 (fun h p => header_pair h = Some p) headers pairs ->
  parse_headers headers fs = Ok (fs ++ pairs)%list.
Proof.
  intros H. revert fs.
  induction H as [|h p hs ps Hh _ IH]; intros fs; simpl.
  - now rewrite app_nil_r.
  - unfold header_pair in Hh.
    destruct (partition ":" h) as [[n v]|] eqn:Hp; [|discriminate].
    injection Hh as <-. unfold fields_parse.
    rewrite (unpack_header _ _ _ Hp), !bind_Ok. unfold fields_add.
    rewrite IH, <- app_assoc. reflexivity.
Qed.

(** The fields of the request the factory returns. *)
Lemma call_request_factory_fields b ca cls request pairs :
  _classes b !! "Request" = Some cls ->
  class_new cls ca = Ok request ->
  Forall2 (fun h p => header_pair h = Some p) (header (_args b)) pairs ->
  let a := _args b in
  let ua := match nonempty (user_agent a) with
            | Some ua => ua
            | None => "Mozilla/5.0 (compatible) Wpull/" ++ version
            end in
  let fs := fields_setitem "User-Agent" ua (fields request) in
  let fs := match nonempty (referer a) with
            | Some ref => fields_setitem "Referer" ref fs
            | None => fs
            end in
  call_request_factory b ca = Ok (with_fields request (fs ++ pairs)%list).
Proof.
  intros Hcls Hnew Hpairs a ua fs0 fs. unfold call_request_factory.
  rewrite (get_class_Some _ _ _ Hcls), bind_Ok, Hnew, bind_Ok.
  fold a ua fs0 fs. now rewrite (parse_headers_Ok _ _ _ Hpairs), bind_Ok.
Qed.

(** C7, as amended: a request made by the factory has the configured
    user-agent as the value of [User-Agent] when a non-empty one is given,
    and the default [Mozilla/5.0 (compatible) Wpull/<version>] otherwise;
    with a non-empty [referer] it has that referer as the value of
    [Referer]; with none, it has a [Referer] field exactly when the new
    request came with one or a header string supplies one; the fields of
    the header strings are all there, after the others. *)
Theorem request_factory_headers (b : Builder) (ca : CallArgs) (cls : Class)
    (request : Request) (pairs : list (string * string)) :
  _classes b !! "Request" = Some cls ->
  class_new cls ca = Ok request ->
  Forall2 (fun h p => header_pair h = Some p) (header (_args b)) pairs ->
  let a := _args b in
  exists r, call_request_factory b ca = Ok r /\
    (forall ua, nonempty (user_agent a) = Some ua ->
       head (fields_get_list "User-Agent" (fields r)) = Some ua) /\
    (nonempty (user_agent a) = None ->
       head (fields_get_list "User-Agent" (fields r))
         = Some ("Mozilla/5.0 (compatible) Wpull/" ++ version)) /\
    (forall ref, nonempty (referer a) = Some ref ->
       head (fields_get_list "Referer" (fields r)) = Some ref) /\
    (nonempty (referer a) = None ->
       (fields_contains "Referer" (fields r) = true <->
        fields_contains "Referer" (fields request) = true \/
        fields_contains "Referer" pairs = true)) /\
    exists before, fields r = (before ++ pairs)%list.
Proof.
  intros Hcls Hnew Hpairs a.
  pose proof (call_request_factory_fields b ca cls request pairs
                Hcls Hnew Hpairs) as Hr.
  cbv zeta in Hr. fold a in Hr.
  eexists. split; [exact Hr|]. simpl.
  assert (forall ua,
            head (fields_get_list "User-Agent"
                    (match nonempty (referer a) with
                     | Some ref =>
                         fields_setitem "Referer" ref
                           (fields_setitem "User-Agent" ua (fields request))
                     | None => fields_setitem "User-Agent" ua (fields request)
                     end ++ pairs)%list) = Some ua) as Hua.
  { intros ua. rewrite fields_get_list_app.
    destruct (nonempty (referer a)).
    - rewrite fields_get_list_setitem_other by reflexivity.
      now rewrite fields_get_list_setitem.
    - now rewrite fields_get_list_setitem. }
  split. { intros ua ->. apply Hua. }
  split. { intros ->. apply Hua. }
  split.
  { intros ref ->. now rewrite fields_get_list_app, fields_get_list_setitem. }
  split; [|eauto].
  intros ->. rewrite fields_contains_app, orb_true_iff.
  enough (fields_contains "Referer"
            (fields_setitem "User-Agent"
               match nonempty (user_agent a) with
               | Some ua => ua
               | None => "Mozilla/5.0 (compatible) Wpull/" ++ version
               end (fields request)) = true
          <-> fields_contains "Referer" (fields request) = true) as ->
    by reflexivity.
  rewrite !fields_contains_get_list.
  now rewrite fields_get_list_setitem_other by reflexivity.
Qed.

(* ===================================================================== *)
(** * Further properties of the builder                                  *)
(* ===================================================================== *)

(** ** Construction *)

Lemma mapM_Raise {A B} (f : A -> Result B) (l : list A) (e : Exn) :
  mapM f l = Raise e <->
  exists pre x post,
    l = (pre ++ x :: post)%list /\
    Forall (fun y => exists v, f y = Ok v) pre /\ f x = Raise e.
Proof.
  unused. induction l as [|x l IH]; simpl.
  - split; [discriminate|]. intros (pre & y & post & H & _).
    now destruct pre.
  - split.
    + intros H. destruct (f x) as [v|e'] eqn:Hx.
      * rewrite bind_Ok in H.
        destruct (mapM f l) as [k|e'] eqn:Hl; [discriminate|].
        rewrite bind_Raise in H. injection H as ->.
        destruct (proj1 IH eq_refl) as (pre & y & post & -> & Hpre & Hy).
        exists (x :: pre), y, post. split; [reflexivity|].
        split; [|assumption]. apply Forall_cons. eauto.
      * rewrite bind_Raise in H. injection H as ->.
        exists [], x, l. split; [reflexivity|]. split; [constructor | assumption].
    + intros ([|p pre] & y & post & Heq & Hpre & Hy);
        simpl in Heq; injection Heq as -> ->.
      * now rewrite Hy.
      * apply Forall_cons in Hpre as [[v Hv] Hpre]. rewrite Hv, bind_Ok.
        assert (mapM f (pre ++ y :: post) = Raise e) as ->
          by (apply IH; eauto 6).
        reflexivity.
Qed.

(** The seed strings in the order they are parsed. *)
Lemma url_string_iter_eq args :
  url_string_iter args =
    (urls args ++ match input_file args with
                  | Some lines => lines
                  | None => []
                  end)%list.
Proof.
  unused. unfold url_string_iter.
  destruct (input_file args); [reflexivity | now rewrite app_nil_r].
Qed.

(** X1: when every seed string parses, [__init__] returns a builder that
    holds the arguments, the registry literal, and one URL record per seed
    string: the command-line URLs first, then the lines of the input
    file. *)
Theorem init_builds_one_record_per_seed (args : Args) :
  (forall s,
     s ∈ (urls args ++ match input_file args with
                       | Some lines => lines
                       | None => []
                       end)%list ->
     exists u, class_parse URLInfo_class s "http" = Ok u) ->
  exists b, __init__ args = Ok b /\
    _args b = args /\ _classes b = initial_classes /\
    length (_url_infos b) =
      (length (urls args) + match input_file args with
                            | Some lines => length lines
                            | None => 0
                            end)%nat /\
    Forall2 (fun s u => class_parse URLInfo_class s "http" = Ok u)
      (urls args ++ match input_file args with
                    | Some lines => lines
                    | None => []
                    end)%list
      (_url_infos b).
Proof.
  unused.
  intros Hall. rewrite <- url_string_iter_eq in *.
  destruct (__init__ args) as [b|e] eqn:Hinit.
  - exists b. split; [reflexivity|].
    destruct (__init___Ok _ _ Hinit) as (Ha & Hc & Hseeds).
    split; [assumption|]. split; [assumption|]. split; [|assumption].
    apply Forall2_length in Hseeds. rewrite <- Hseeds, url_string_iter_eq.
    rewrite length_app. now destruct (input_file args).
  - exfalso. unfold __init__, _build_input_urls in Hinit.
    destruct (mapM _ (url_string_iter args)) as [k|e'] eqn:Hm;
      [discriminate|].
    apply mapM_Raise in Hm as (pre & x & post & Heq & _ & Hx).
    destruct (Hall x) as [u Hu].
    { rewrite Heq. apply elem_of_app. right. apply elem_of_cons. auto. }
    change (class_parse URLInfo_class x "http" = Raise e') in Hx.
    congruence.
Qed.

(** X2: [__init__] raises [e] exactly when [e] is what parsing the first
    unparsable seed string raises; the strings are tried in order, the
    command line before the input file, and those after the failing one are
    not looked at. *)
Theorem init_raises_first_parse_error (args : Args) (e : Exn) :
  __init__ args = Raise e <->
  exists pre s post,
    (urls args ++ match input_file args with
                  | Some lines => lines
                  | None => []
                  end)%list = (pre ++ s :: post)%list /\
    Forall (fun y => exists u, class_parse URLInfo_class y "http" = Ok u) pre /\
    class_parse URLInfo_class s "http" = Raise e.
Proof.
  unused.
  rewrite <- url_string_iter_eq. unfold __init__, _build_input_urls.
  split.
  - destruct (mapM _ (url_string_iter args)) as [k|e'] eqn:Hm;
      [discriminate|].
    rewrite bind_Raise. intros [= ->].
    apply mapM_Raise in Hm as (pre & x & post & Heq & Hpre & Hx).
    exists pre, x, post. split; [assumption|]. split; [|exact Hx].
    eapply Forall_impl; [exact Hpre|]. intros y Hy. exact Hy.
  - intros (pre & x & post & Heq & Hpre & Hx).
    assert (mapM (fun url_string =>
                    cls ← match initial_classes !! "URLInfo" with
                          | Some cls => Ok cls
                          | None => Raise (KeyError "URLInfo")
                          end;
                    class_parse cls url_string "http")
                 (url_string_iter args) = Raise e) as ->; [|reflexivity].
    apply mapM_Raise. exists pre, x, post. split; [assumption|].
    split; [|exact Hx].
    eapply Forall_impl; [exact Hpre|]. intros y Hy. exact Hy.
Qed.

(** ** Running stateful computations *)

Lemma M_bind_Ok {A B} (m : M A) (f : A -> M B) w x w1 :
  m w = (Ok x, w1) -> (m ≫= f) w = f x w1.
Proof. unused. unfold mbind, M_bind. now intros ->. Qed.

Lemma M_bind_Raise {A B} (m : M A) (f : A -> M B) w e w1 :
  m w = (Raise e, w1) -> (m ≫= f) w = (Raise e, w1).
Proof. unused. unfold mbind, M_bind. now intros ->. Qed.

Lemma extend_nil w : extend w [] = w.
Proof. unused. destruct w. unfold extend. simpl. now rewrite app_nil_r. Qed.

Lemma extend_extend w evs1 evs2 :
  extend (extend w evs1) evs2 = extend w (evs1 ++ evs2).
Proof. unused. unfold extend. simpl. now rewrite app_assoc. Qed.

Lemma emit_run e w : emit e w = (Ok tt, extend w [e]).
Proof. reflexivity. Qed.

Lemma adds_app l1 l2 : adds (l1 ++ l2) = (adds l1 ++ adds l2)%list.
Proof. unused. unfold adds. apply omap_app. Qed.

Lemma runs_app l1 l2 : runs (l1 ++ l2) = (runs l1 ++ runs l2)%list.
Proof. unused. unfold runs. apply omap_app. Qed.

(** Computations that leave the builder object alone. *)
Definition keeps_self {A} (m : M A) : Prop :=
  forall w r w', m w = (r, w') -> self w' = self w.

Lemma keeps_self_ret {A} (x : A) : keeps_self (mret x).
Proof. unused. now intros w r w' [= <- <-]. Qed.

Lemma keeps_self_lift {A} (r : Result A) : keeps_self (lift r).
Proof. unused. now intros w r' w' [= <- <-]. Qed.

Lemma keeps_self_emit e : keeps_self (emit e).
Proof. unused. now intros w r w' [= <- <-]. Qed.

Lemma keeps_self_bind {A B} (m : M A) (f : A -> M B) :
  keeps_self m -> (forall x, keeps_self (f x)) -> keeps_self (m ≫= f).
Proof.
  unused. intros Hm Hf w r w' H.
  apply M_bind_inv in H as [(x & w1 & H1 & H2)|(e & H1 & _)].
  - rewrite (Hf _ _ _ _ H2). exact (Hm _ _ _ H1).
  - exact (Hm _ _ _ H1).
Qed.

Lemma keeps_self_with_self {A} (f : Builder -> M A) :
  (forall b, keeps_self (f b)) -> keeps_self (with_self f).
Proof. unused. intros Hf w r w' H. exact (Hf _ _ _ _ H). Qed.

Lemma keeps_self_read {A} (f : Builder -> Result A) : keeps_self (read f).
Proof. unused. apply keeps_self_with_self. intros b. apply keeps_self_lift. Qed.

Create HintDb keeps_self.
#[local] Hint Resolve keeps_self_ret keeps_self_lift keeps_self_emit
  keeps_self_read : keeps_self.
#[local] Hint Extern 3 (keeps_self (_ ≫= _)) =>
  apply keeps_self_bind; [|intros ?] : keeps_self.
#[local] Hint Extern 3 (keeps_self (with_self _)) =>
  apply keeps_self_with_self; intros ? : keeps_self.

Lemma keeps_self__setup_logging : keeps_self _setup_logging.
Proof.
  unused.
  unfold _setup_logging. apply keeps_self_with_self. intros b.
  apply keeps_self_bind; [auto with keeps_self|]. intros _.
  destruct (num_eq _ _); [|apply keeps_self_ret]; auto with keeps_self.
Qed.

Lemma keeps_self__setup_file_logger : keeps_self _setup_file_logger.
Proof.
  unused.
  unfold _setup_file_logger. apply keeps_self_with_self. intros b.
  cbv zeta.
  destruct (nonempty (output_file (_args b))),
    (nonempty (append_output (_args b)));
    unfold add_file_handler, pass; auto with keeps_self.
Qed.

Lemma keeps_self__build_url_table : keeps_self _build_url_table.
Proof. unfold _build_url_table. auto 10 with keeps_self. Qed.

(** ** Logging *)

(** X3: [_setup_logging] never raises and leaves the builder alone.  It
    configures logging at level INFO when no verbosity is given or the
    verbosity is 0, and at the verbosity otherwise; it sets the blocking
    log threshold, to 5, exactly when the verbosity is DEBUG. *)
Theorem logging_level_defaults_to_info (w : World) :
  let a := _args (self w) in
  exists lvl rest,
    _setup_logging w = (Ok tt, extend w (EvBasicConfig lvl :: rest)) /\
    (verbosity a = None -> lvl = INFO) /\
    (verbosity a = Some 0 -> lvl = INFO) /\
    (forall v, verbosity a = Some v -> v <> 0 -> lvl = v) /\
    (verbosity a = Some DEBUG -> rest = [EvSetBlockingLogThreshold 5]) /\
    (verbosity a <> Some DEBUG -> rest = []).
Proof.
  unused.
  intros a. unfold _setup_logging, with_self. fold a.
  rewrite (M_bind_Ok _ _ _ _ _ (emit_run _ _)).
  destruct (verbosity a) as [v|] eqn:Hv; simpl.
  - destruct (Z.eqb_spec v DEBUG) as [->|Hd].
    + rewrite emit_run, extend_extend. simpl.
      eexists _, _. split; [reflexivity|].
      repeat split; try congruence; try discriminate.
    + unfold pass. simpl.
      destruct (Z.eqb_spec v 0) as [->|Hz];
        eexists _, _; (split; [reflexivity|]);
        repeat split; try congruence; try discriminate.
  - unfold pass. simpl. eexists _, _. split; [reflexivity|].
    repeat split; try congruence; discriminate.
Qed.

Lemma _setup_logging_Ok w :
  exists evs, _setup_logging w = (Ok tt, extend w evs) /\
              adds evs = [] /\ runs evs = [].
Proof.
  unused.
  destruct (_setup_logging w) as [r w'] eqn:H.
  pose proof (keeps_self__setup_logging _ _ _ H) as Hself.
  destruct (silent__setup_logging _ _ _ H) as (_ & _ & evs & Ht & Ha & Hr).
  exists evs. split; [|auto].
  assert (r = Ok tt) as ->.
  { revert H. unfold _setup_logging, with_self.
    rewrite (M_bind_Ok _ _ _ _ _ (emit_run _ _)).
    destruct (num_eq _ _); intros [= <- _]; reflexivity. }
  f_equal. destruct w'. unfold extend. simpl in *. congruence.
Qed.

(** X4: [_setup_file_logger] adds no handler when neither [output_file]
    nor [append_output] is given.  With [output_file] it opens that file in
    mode ['w'], whether or not [append_output] is given too; with only
    [append_output] it opens that file in mode ['a'].  The handler's level
    is DEBUG when the verbosity is DEBUG and INFO otherwise.  When the file
    cannot be opened the error is raised and no handler is added. *)
Theorem file_logger_prefers_output_file (w : World) :
  let a := _args (self w) in
  exists lvl,
    (verbosity a = Some DEBUG -> lvl = DEBUG) /\
    (verbosity a <> Some DEBUG -> lvl = INFO) /\
    (nonempty (output_file a) = None -> nonempty (append_output a) = None ->
       _setup_file_logger w = (Ok tt, w)) /\
    (forall f, nonempty (output_file a) = Some f ->
       _setup_file_logger w =
         match FileHandler f "w" with
         | Ok _ => (Ok tt, extend w [EvAddFileHandler f "w" lvl])
         | Raise e => (Raise e, w)
         end) /\
    (forall f, nonempty (output_file a) = None ->
       nonempty (append_output a) = Some f ->
       _setup_file_logger w =
         match FileHandler f "a" with
         | Ok _ => (Ok tt, extend w [EvAddFileHandler f "a" lvl])
         | Raise e => (Raise e, w)
         end).
Proof.
  unused.
  intros a. exists (if num_eq (verbosity a) DEBUG then DEBUG else INFO).
  assert (forall f mode,
            add_file_handler a f mode w =
              match FileHandler f mode with
              | Ok _ =>
                  (Ok tt,
                   extend w [EvAddFileHandler f mode
                               (if num_eq (verbosity a) DEBUG
                                then DEBUG else INFO)])
              | Raise e => (Raise e, w)
              end) as Hadd.
  { intros f mode. unfold add_file_handler, mbind, M_bind, lift.
    destruct (FileHandler f mode); reflexivity. }
  split.
  { intros ->. reflexivity. }
  split.
  { intros Hv. destruct (verbosity a) as [v|]; [|reflexivity]. simpl.
    destruct (Z.eqb_spec v DEBUG); [congruence | reflexivity]. }
  unfold _setup_file_logger, with_self. fold a.
  split; [|split].
  - intros -> ->. reflexivity.
  - intros f ->. apply Hadd.
  - intros f -> ->. apply Hadd.
Qed.

Lemma _setup_file_logger_Ok w :
  file_logger_ok (_args (self w)) ->
  exists evs, _setup_file_logger w = (Ok tt, extend w evs) /\
              adds evs = [] /\ runs evs = [].
Proof.
  unused.
  unfold file_logger_ok, _setup_file_logger, with_self.
  destruct (nonempty (output_file (_args (self w)))) as [f|];
    [|destruct (nonempty (append_output (_args (self w)))) as [f|]];
    intros Hok.
  - unfold add_file_handler, mbind, M_bind, lift. rewrite Hok.
    rewrite emit_run. eauto.
  - unfold add_file_handler, mbind, M_bind, lift. rewrite Hok.
    rewrite emit_run. eauto.
  - exists []. now rewrite extend_nil.
Qed.

(** ** Script hooks and the registry *)

Lemma hookable_Engine : "Engine" ∈ hookable.
Proof. unused. unfold hookable. set_solver. Qed.

Lemma hookable_WebProcessor : "WebProcessor" ∈ hookable.
Proof. unused. unfold hookable. set_solver. Qed.

Lemma hookable_Resolver : "Resolver" ∈ hookable.
Proof. unused. unfold hookable. set_solver. Qed.

Lemma hooked_lookup_other m key :
  key ∉ hookable -> hooked m !! key = m !! key.
Proof.
  unused. intros Hkey. unfold hooked.
  rewrite !lookup_insert_ne; [reflexivity| | |]; intros <-; apply Hkey;
    auto using hookable_Engine, hookable_WebProcessor, hookable_Resolver.
Qed.

Lemma hooked_Engine m :
  hooked m !! "Engine" = Some (engine_factory HookEnvironment_new).
Proof.
  unused. unfold hooked.
  do 2 (rewrite lookup_insert_ne by done). apply lookup_insert_eq.
Qed.

Lemma hooked_WebProcessor m :
  hooked m !! "WebProcessor" = Some (web_processor_factory HookEnvironment_new).
Proof.
  unused. unfold hooked.
  rewrite lookup_insert_ne by done. apply lookup_insert_eq.
Qed.

Lemma hooked_Resolver m :
  hooked m !! "Resolver" = Some (resolver_factory HookEnvironment_new).
Proof. unused. unfold hooked. apply lookup_insert_eq. Qed.

Lemma hooked_complete m : complete m -> complete (hooked m).
Proof. unused. intros H. unfold hooked. auto using complete_insert. Qed.

Lemma hooked_standard m : standard m -> standard (hooked m).
Proof.
  unused. intros H. unfold hooked.
  auto using standard_insert, hookable_Engine, hookable_WebProcessor,
    hookable_Resolver.
Qed.

(** The builder with its registry replaced. *)
Definition with_classes (b : Builder) (m : gmap string Class) : Builder :=
  {| _args := _args b; _classes := m; _url_infos := _url_infos b |}.

(** What [_install_python_script] does, case by case. *)
Lemma _install_python_script_run filename w :
  _install_python_script filename w =
    match open_ filename with
    | Raise e => (Raise e, extend w [EvOpen filename])
    | Ok in_file =>
        let b := with_classes (self w) (hooked (_classes (self w))) in
        match in_file with
        | Raise e =>
            (Raise e, {| self := b; trace := trace w ++ [EvOpen filename] |})
        | Ok text =>
            (exec_ text filename HookEnvironment_new,
             {| self := b;
                trace := trace w ++ [EvOpen filename;
                                     EvExec text filename HookEnvironment_new]
             |})
        end
    end.
Proof.
  unused.
  unfold _install_python_script, mbind, M_bind, emit, lift, set_class.
  simpl. destruct (open_ filename) as [[text|e]|e]; simpl; try reflexivity.
  rewrite <- app_assoc. simpl.
  destruct (exec_ text filename HookEnvironment_new) as [[]|]; reflexivity.
Qed.

(** After [_install_script_hooks] the builder is as before, or as before
    with the hooked registry; it is the latter whenever a script is named
    and the step does not raise. *)
Lemma _install_script_hooks_self w r w' :
  _install_script_hooks w = (r, w') ->
  (self w' = self w \/
   self w' = with_classes (self w) (hooked (_classes (self w)))) /\
  (nonempty (python_script (_args (self w))) = None -> self w' = self w) /\
  (forall filename,
     nonempty (python_script (_args (self w))) = Some filename ->
     r = Ok tt ->
     self w' = with_classes (self w) (hooked (_classes (self w)))).
Proof.
  unused.
  unfold _install_script_hooks, with_self.
  destruct (nonempty (python_script (_args (self w)))) as [f|].
  - rewrite _install_python_script_run.
    destruct (open_ f) as [[text|e]|e]; simpl; intros [= <- <-]; simpl;
      (split; [auto|]); (split; [discriminate|]); try discriminate; auto.
  - intros [= <- <-]. split; [auto|]. split; [auto | discriminate].
Qed.

Lemma _install_script_hooks_Ok w :
  script_ok (_args (self w)) ->
  exists evs w',
    _install_script_hooks w = (Ok tt, w') /\
    trace w' = (trace w ++ evs)%list /\ adds evs = [] /\ runs evs = [] /\
    self w' =
      match nonempty (python_script (_args (self w))) with
      | Some _ => with_classes (self w) (hooked (_classes (self w)))
      | None => self w
      end.
Proof.
  unused.
  unfold script_ok, _install_script_hooks, with_self.
  destruct (nonempty (python_script (_args (self w)))) as [f|].
  - intros (text & Hopen & Hexec).
    rewrite _install_python_script_run, Hopen, Hexec. simpl.
    eexists _, _. split; [reflexivity|]. simpl. repeat split; reflexivity.
  - intros _. exists [], w. rewrite app_nil_r. repeat split; reflexivity.
Qed.

(** A script that fails stops [_install_script_hooks] with its error. *)
Lemma _install_script_hooks_fails w filename e :
  nonempty (python_script (_args (self w))) = Some filename ->
  script_fails filename e ->
  exists w', _install_script_hooks w = (Raise e, w').
Proof.
  unused.
  unfold _install_script_hooks, with_self, script_fails. intros -> H.
  rewrite _install_python_script_run.
  destruct H as [-> | [-> | (text & -> & ->)]]; simpl; eauto.
Qed.

(** ** What [build] keeps *)

Lemma framed_keeps_self {A} (m : M A) : keeps_self m -> framed m.
Proof.
  unused. intros Hm w r w' H. rewrite (Hm _ _ _ H). auto.
Qed.

Lemma framed_bind {A B} (m : M A) (f : A -> M B) :
  framed m -> (forall x, framed (f x)) -> framed (m ≫= f).
Proof.
  unused. intros Hm Hf w r w' H.
  apply M_bind_inv in H as [(x & w1 & H1 & H2)|(e & H1 & _)].
  - destruct (Hm _ _ _ H1) as (Ha1 & Hu1 & Hk1 & Hc1).
    destruct (Hf x _ _ _ H2) as (Ha2 & Hu2 & Hk2 & Hc2).
    split; [congruence|]. split; [congruence|]. split; [|auto].
    intros key Hkey. rewrite Hk2, Hk1; auto.
  - exact (Hm _ _ _ H1).
Qed.

Lemma framed__install_script_hooks : framed _install_script_hooks.
Proof.
  unused.
  intros w r w' H.
  apply _install_script_hooks_self in H as [[-> | ->] _]; simpl; auto.
  repeat split; auto using hooked_lookup_other, hooked_complete.
Qed.

Lemma framed_build : framed build.
Proof.
  unused.
  unfold build.
  apply framed_bind;
    [apply framed_keeps_self, keeps_self__setup_logging|intros _].
  apply framed_bind;
    [apply framed_keeps_self, keeps_self__setup_file_logger|intros _].
  apply framed_bind; [apply framed__install_script_hooks|intros _].
  apply framed_keeps_self.
  apply keeps_self_bind; [apply keeps_self__build_url_table|intros t].
  auto 10 with keeps_self.
Qed.

(** X5: whatever its outcome, [build_and_run] leaves the arguments and the
    seed records of the builder as they were and rebinds no registry name
    other than ['Engine'], ['WebProcessor'] and ['Resolver']; a registry
    that was standard before is standard after. *)
Theorem build_and_run_rebinds_only_hookable_names (w : World)
    (r : Result Z) (w' : World) :
  build_and_run w = (r, w') ->
  _args (self w') = _args (self w) /\
  _url_infos (self w') = _url_infos (self w) /\
  (forall key, key ∉ hookable ->
     _classes (self w') !! key = _classes (self w) !! key) /\
  (standard (_classes (self w)) -> standard (_classes (self w'))).
Proof.
  unused.
  intros H.
  assert (framed build_and_run) as Hframed.
  { unfold build_and_run. apply framed_bind; [apply framed_build|].
    intros engine. apply framed_keeps_self. auto with keeps_self. }
  destruct (Hframed _ _ _ H) as (Ha & Hu & Hk & Hc).
  split; [assumption|]. split; [assumption|]. split; [assumption|].
  intros [Hcomplete Hstd]. split; [auto|].
  intros key Hkey. rewrite Hk; auto.
Qed.

(** ** Recorder *)

Lemma forallb_false_ex {A} (f : A -> bool) (l : list A) :
  forallb f l = false <-> exists x, x ∈ l /\ f x = false.
Proof.
  unused. induction l as [|x l IH]; simpl.
  - split; [discriminate|]. intros (x & Hx & _). now apply elem_of_nil in Hx.
  - rewrite andb_false_iff, IH. split.
    + intros [Hx|(y & Hy & Hf)].
      * exists x. split; [apply elem_of_cons; auto | assumption].
      * exists y. split; [apply elem_of_cons; auto | assumption].
    + intros (y & [->|Hy]%elem_of_cons & Hf); eauto.
Qed.

Lemma append_warc_headers_Ok_inv headers extra_fields res :
  append_warc_headers extra_fields headers = Ok res ->
  exists pairs, res = (extra_fields ++ pairs)%list /\
                Forall2 (fun h p => header_pair h = Some p) headers pairs.
Proof.
  unused. revert extra_fields.
  induction headers as [|h hs IH]; intros acc; simpl.
  - intros [= <-]. exists []. now rewrite app_nil_r.
  - intros ([n v] & Hh & H)%bind_Ok_inv.
    apply IH in H as (pairs & -> & Hpairs).
    exists ((strip n, strip v) :: pairs). rewrite <- app_assoc.
    split; [reflexivity|]. constructor; [|assumption].
    unfold header_pair, split1 in *.
    destruct (partition ":" h) as [[n' v']|]; [|discriminate].
    now injection Hh as -> ->.
Qed.

Lemma _build_recorder_returns b :
  standard (_classes b) -> warc_headers_ok (_args b) = true ->
  exists rec, _build_recorder b = Ok rec.
Proof.
  unused.
  intros Hstd Hok.
  pose proof (_build_recorder_standard b Hstd) as Hrec. cbv zeta in Hrec.
  unfold warc_headers_ok in Hok.
  destruct (nonempty (warc_file (_args b))) as [f|] eqn:Hf; [|eauto].
  assert (truthy_str (warc_file (_args b)) = true) as Ht
    by (apply truthy_nonempty; rewrite Hf; eauto).
  rewrite Ht in Hok. simpl in Hok.
  destruct (header_pairs_exist _ Hok) as [pairs Hpairs]. eauto.
Qed.

(** X6: with a standard registry, [_build_recorder] raises exactly when
    an archive file is named and some [warc_header] string has no colon,
    and what it raises is [ValueError]; [_build_http_client] then raises
    [ValueError] too.  Header strings are not read when no archive file is
    named. *)
Theorem recorder_raises_on_header_without_colon (b : Builder) :
  standard (_classes b) ->
  let a := _args b in
  let bad := truthy_str (warc_file a) = true /\
             exists h, h ∈ warc_header a /\ contains ":" h = false in
  (forall e, _build_recorder b = Raise e -> e = ValueError /\ bad) /\
  (bad -> _build_recorder b = Raise ValueError /\
          _build_http_client b = Raise ValueError) /\
  (truthy_str (warc_file a) = false -> exists rec, _build_recorder b = Ok rec).
Proof.
  unused.
  intros Hstd a bad.
  assert (warc_headers_ok a = false <-> bad) as Hbad.
  { unfold warc_headers_ok, bad.
    rewrite orb_false_iff, negb_false_iff, forallb_false_ex. reflexivity. }
  split; [|split].
  - intros e He. destruct (warc_headers_ok a) eqn:Hok.
    + destruct (_build_recorder_returns b Hstd Hok) as [rec Hrec].
      congruence.
    + rewrite (_build_recorder_bad_header b Hok) in He.
      injection He as <-. split; [reflexivity | now apply Hbad].
  - intros Hb. apply Hbad in Hb.
    pose proof (_build_recorder_bad_header b Hb) as Hrec.
    split; [assumption|]. unfold _build_http_client.
    destruct (build_resolver_returns b (proj1 Hstd)) as [r Hr].
    destruct (timeouts (_args b)) as [[dns conn] rd].
    rewrite Hr, bind_Ok.
    rewrite (standard_get b "ConnectionPool" _ Hstd eq_refl eq_refl), bind_Ok.
    now rewrite Hrec.
  - intros Hf. apply _build_recorder_returns; [assumption|].
    unfold warc_headers_ok. fold a. now rewrite Hf.
Qed.

(** What a recorder returned by [_build_recorder] holds, whatever the
    registry. *)
Lemma _build_recorder_Ok_inv b rec :
  _build_recorder b = Ok rec ->
  let a := _args b in
  exists archive rest,
    recorders rec = (archive ++ rest)%list /\
    (nonempty (warc_file a) = None -> archive = []) /\
    (forall f, nonempty (warc_file a) = Some f ->
       exists cls pairs,
         archive =
           [WARCRecorder cls
              (f ++ if no_warc_compression a then ".warc" else ".warc.gz")
              (negb (no_warc_compression a))
              ([("robots", if robots a then "on" else "off");
                ("wpull-arguments", Namespace_str a)] ++ pairs)%list
              (warc_tempdir a) (warc_log a) (warc_append a)]) /\
    sublist (map sink_kind rest) [ServerResponseSink; ProgressSink].
Proof.
  unused.
  intros H a. unfold _build_recorder in H. fold a in H.
  apply bind_Ok_inv in H as (r1 & H1 & H).
  apply bind_Ok_inv in H as (r2 & H2 & H).
  apply bind_Ok_inv in H as (r3 & H3 & H).
  apply bind_Ok_inv in H as (cls & _ & [= <-]). simpl.
  assert (exists rest, r3 = (r1 ++ rest)%list /\
            sublist (map sink_kind rest) [ServerResponseSink; ProgressSink])
    as (rest & -> & Hrest).
  { destruct (server_response a);
      [apply bind_Ok_inv in H2 as (c2 & _ & [= <-])|injection H2 as <-];
      (destruct (in_tuple (verbosity a) _);
       [apply bind_Ok_inv in H3 as (c3 & _ & [= <-])|injection H3 as <-]).
    - exists [PrintServerResponseRecorder c2; ProgressRecorder c3].
      rewrite <- app_assoc. split; [reflexivity|]. simpl.
      repeat constructor.
    - exists [PrintServerResponseRecorder c2]. split; [reflexivity|]. simpl.
      apply sublist_skip, sublist_cons, sublist_nil.
    - exists [ProgressRecorder c3]. split; [reflexivity|]. simpl.
      apply sublist_cons, sublist_skip, sublist_nil.
    - exists []. rewrite app_nil_r. split; [reflexivity|]. simpl.
      apply sublist_nil_l. }
  exists r1, rest. split; [reflexivity|].
  destruct (nonempty (warc_file a)) as [f|].
  - apply bind_Ok_inv in H1 as (extra & Hextra & H1).
    apply bind_Ok_inv in H1 as (wc & _ & [= <-]).
    apply append_warc_headers_Ok_inv in Hextra as (pairs & -> & _).
    split; [discriminate|]. split; [|assumption].
    intros f' [= <-]. exists wc, pairs.
    destruct (no_warc_compression a); reflexivity.
  - injection H1 as <-. split; [reflexivity|]. split; [discriminate|].
    assumption.
Qed.

(** X7: the sinks of a recorder come in a fixed order, the archive writer
    before the server-response printer before the progress meter, and no
    kind of sink occurs twice. *)
Theorem recorder_sinks_in_fixed_order (b : Builder) (rec : DemuxRecorder) :
  _build_recorder b = Ok rec ->
  sublist (map sink_kind (recorders rec))
    [ArchiveSink; ServerResponseSink; ProgressSink] /\
  NoDup (map sink_kind (recorders rec)).
Proof.
  unused.
  intros H.
  assert (sublist (map sink_kind (recorders rec))
            [ArchiveSink; ServerResponseSink; ProgressSink]) as Hsub.
  { destruct (_build_recorder_Ok_inv b rec H)
      as (archive & rest & -> & Hnone & Hsome & Hrest).
    rewrite map_app.
    destruct (nonempty (warc_file (_args b))) as [f|].
    - destruct (Hsome f eq_refl) as (cls & pairs & ->). simpl.
      now apply sublist_skip.
    - rewrite (Hnone eq_refl). simpl. now apply sublist_cons. }
  split; [assumption|].
  eapply sublist_NoDup; [|exact Hsub].
  repeat (apply NoDup_cons; split;
          [intros Hin;
           repeat (apply elem_of_cons in Hin as [Hin|Hin]; [discriminate Hin|]);
           now apply elem_of_nil in Hin|]).
  apply NoDup_nil_2.
Qed.

(** ** File writer *)

(** X8: the path namer of a file writer is told to use directories when
    [use_directories] is ['force'], not to when it is ['no'], and otherwise
    exactly when the command line does not hold exactly one URL, or
    [page_requisites] or [recursive] is set; the writer's three flags are
    [continue_download], [save_headers] and [use_server_timestamps]. *)
Theorem path_namer_use_dir (b : Builder) (fc : FileWriterClass)
    (pn : PathNamer) (continuing headers timestamps : bool) :
  _build_file_writer b = Ok (FileWriter fc pn continuing headers timestamps) ->
  let a := _args b in
  _classes b !! "PathNamer" = Some (pn_cls pn) /\
  (use_directories a = Some "force" -> pn_use_dir pn = true) /\
  (use_directories a = Some "no" -> pn_use_dir pn = false) /\
  (use_directories a <> Some "force" -> use_directories a <> Some "no" ->
     (pn_use_dir pn = true <->
      length (urls a) <> 1%nat \/ page_requisites a = true
        \/ recursive a = true)) /\
  continuing = continue_download a /\ headers = save_headers a /\
  timestamps = use_server_timestamps a.
Proof.
  unused.
  intros H a. unfold _build_file_writer in H. fold a in H.
  destruct (delete_after a); [discriminate|].
  apply bind_Ok_inv in H as (cls & Hcls & H).
  apply get_class_Ok in Hcls.
  injection H as _ <- <- <- <-. simpl.
  split; [assumption|].
  split. { intros Hf. apply str_eq_true in Hf. now rewrite Hf. }
  split. { intros Hn. now rewrite Hn. }
  split; [|auto].
  intros Hf Hn. apply str_eq_false in Hf, Hn. rewrite Hf, Hn.
  rewrite !orb_true_iff, negb_true_iff, Nat.eqb_neq. tauto.
Qed.

(** ** Connections *)

(** X9: every connection made by the connection factory of any host pool
    that the client's pool factory makes uses the one resolver built with
    the client; it gets the caller's own arguments unchanged and
    [keep_alive] from [http_keep_alive]. *)
Theorem pooled_connections_share_resolver (b : Builder) (client : Client)
    (b' : Builder) (pool_args conn_args : CallArgs)
    (host_pool : HostConnectionPool) (conn : Connection) :
  _build_http_client b = Ok client ->
  call_host_connection_pool_factory b'
    (host_connection_pool_factory (connection_pool client)) pool_args
    = Ok host_pool ->
  call_connection_factory b' (host_pool_connection_factory host_pool)
    conn_args = Ok conn ->
  build_resolver b = Ok (connection_resolver conn) /\
  connection_keep_alive conn = http_keep_alive (_args b') /\
  connection_args conn = positional conn_args /\
  connection_kwargs conn = keywords conn_args /\
  has_key ["resolver"; "connect_timeout"; "read_timeout"; "keep_alive"]
    (keywords conn_args) = false.
Proof.
  unused.
  intros Hclient Hpool Hconn.
  apply _build_http_client_Ok in Hclient as (r & rec & Hr & _ & _ & Hcf).
  unfold client_connection_factory in Hcf.
  unfold call_host_connection_pool_factory in Hpool.
  apply bind_Ok_inv in Hpool as (pc & _ & Hpool).
  destruct (has_key ["connection_factory"] _); [discriminate|].
  injection Hpool as <-. simpl in Hconn. rewrite Hcf in Hconn.
  unfold call_connection_factory in Hconn.
  apply bind_Ok_inv in Hconn as (cc & _ & Hconn).
  destruct (has_key _ (keywords conn_args)); [discriminate|].
  injection Hconn as <-. simpl. auto.
Qed.

(** ** The anatomy of a built engine *)

Lemma _build_file_writer_returns b :
  complete (_classes b) -> exists w, _build_file_writer b = Ok w.
Proof.
  unused.
  intros Hc. unfold _build_file_writer.
  destruct (delete_after (_args b)); [now eexists|].
  destruct (complete_get b "PathNamer" Hc) as [cls ->]; [now eexists|].
  rewrite bind_Ok. eauto.
Qed.

Lemma _build_processor_returns b :
  complete (_classes b) -> exists p, _build_processor b = Ok p.
Proof.
  unused.
  intros Hc. unfold _build_processor.
  destruct (_build_file_writer_returns b Hc) as [w ->]. rewrite bind_Ok.
  destruct (complete_get b "Waiter" Hc) as [wc ->]; [now eexists|].
  rewrite bind_Ok.
  destruct (complete_get b "WebProcessor" Hc) as [pc ->]; [now eexists|].
  rewrite bind_Ok. eauto.
Qed.

Lemma _build_processor_Ok b p :
  _build_processor b = Ok p ->
  get_class b "WebProcessor" = Ok (processor_cls p) /\
  url_filters p = _build_url_filters b /\
  document_scrapers p = _build_document_scrapers b /\
  _build_file_writer b = Ok (file_writer p) /\
  processor_robots p = robots (_args b).
Proof.
  unused.
  unfold _build_processor. intros H.
  apply bind_Ok_inv in H as (w & Hw & H).
  apply bind_Ok_inv in H as (wc & _ & H).
  apply bind_Ok_inv in H as (pc & Hpc & H).
  injection H as <-. simpl. auto.
Qed.

Lemma build_resolver_Ok b r :
  build_resolver b = Ok r -> get_class b "Resolver" = Ok (resolver_cls r).
Proof.
  unused.
  unfold build_resolver.
  destruct (timeouts (_args b)) as [[dns conn] rd]. intros H.
  apply bind_Ok_inv in H as (cls & Hcls & H). now injection H as <-.
Qed.

Lemma read_run {A} (f : Builder -> Result A) w : read f w = (f (self w), w).
Proof. reflexivity. Qed.

Lemma _build_url_table_run w cls :
  get_class (self w) "URLTable" = Ok cls ->
  let table := {| table_cls := cls;
                  table_path := database (_args (self w)) |} in
  _build_url_table w =
    (Ok table,
     extend w [EvURLTableAdd table (map url (_url_infos (self w)))]).
Proof.
  unused.
  intros Hcls. unfold _build_url_table, with_self, mbind, M_bind, lift.
  now rewrite Hcls.
Qed.

Lemma _build_url_table_Ok w table w' :
  _build_url_table w = (Ok table, w') ->
  get_class (self w) "URLTable" = Ok (table_cls table) /\
  table_path table = database (_args (self w)).
Proof.
  unused.
  unfold _build_url_table, with_self, mbind, M_bind, lift, emit. simpl.
  destruct (get_class (self w) "URLTable"); intros [= <- _]; auto.
Qed.

(** The parts of an engine that [build] returned, in terms of the builder
    [build] left behind. *)
Lemma build_Ok_inv w engine w' :
  build w = (Ok engine, w') ->
  let b := self w' in
  _args b = _args (self w) /\
  _url_infos b = _url_infos (self w) /\
  _classes b =
    match nonempty (python_script (_args (self w))) with
    | Some _ => hooked (_classes (self w))
    | None => _classes (self w)
    end /\
  get_class b "URLTable" = Ok (table_cls (engine_url_table engine)) /\
  table_path (engine_url_table engine) = database (_args b) /\
  _build_processor b = Ok (engine_processor engine) /\
  _build_http_client b = Ok (engine_http_client engine) /\
  get_class b "Engine" = Ok (engine_cls engine) /\
  engine_concurrent engine = concurrent (_args b).
Proof.
  unused.
  intros H b. unfold build in H.
  apply M_bind_inv in H as [(u1 & w1 & H1 & H)|(e & _ & [=])].
  apply keeps_self__setup_logging in H1.
  apply M_bind_inv in H as [(u2 & w2 & H2 & H)|(e & _ & [=])].
  apply keeps_self__setup_file_logger in H2.
  apply M_bind_inv in H as [(u3 & w3 & H3 & H)|(e & _ & [=])].
  destruct u3.
  apply _install_script_hooks_self in H3 as (_ & Hnone & Hsome).
  rewrite H2, H1 in Hnone, Hsome.
  assert (self w3 =
            with_classes (self w)
              match nonempty (python_script (_args (self w))) with
              | Some _ => hooked (_classes (self w))
              | None => _classes (self w)
              end) as Hself3.
  { destruct (nonempty (python_script (_args (self w)))) as [f|].
    - exact (Hsome f eq_refl eq_refl).
    - rewrite (Hnone eq_refl). now destruct (self w). }
  clear Hnone Hsome H1 H2.
  apply M_bind_inv in H as [(table & w4 & H4 & H)|(e & _ & [=])].
  pose proof (keeps_self__build_url_table _ _ _ H4) as Hself4.
  apply _build_url_table_Ok in H4 as [Htab Hpath].
  apply M_bind_inv in H as [(p & w5 & H5 & H)|(e & _ & [=])].
  apply read_inv in H5 as [-> H5].
  apply M_bind_inv in H as [(c & w6 & H6 & H)|(e & _ & [=])].
  apply read_inv in H6 as [-> H6].
  unfold with_self, mbind, M_bind, lift in H. simpl in H.
  destruct (get_class (self w4) "Engine") as [cls|] eqn:Hcls;
    [|discriminate H].
  injection H as <- <-.
  subst b. simpl. rewrite Hself4 in *. rewrite Hself3 in *. simpl in *.
  repeat split; auto.
Qed.

(** X10: when a hook script is named, the engine that [build] returns is
    made by the hook environment's engine factory, its processor by the
    web-processor factory and its resolver by the resolver factory; the URL
    table and the client are made by the classes the registry held before.
    When no script is named, all of them are made by the classes the
    registry held before. *)
Theorem hook_factories_build_the_engine (w : World) (engine : Engine)
    (w' : World) :
  build w = (Ok engine, w') ->
  let a := _args (self w) in
  let m := _classes (self w) in
  let h := HookEnvironment_new in
  let resolver :=
    cf_resolver (client_connection_factory (engine_http_client engine)) in
  m !! "URLTable" = Some (table_cls (engine_url_table engine)) /\
  m !! "Client" = Some (client_cls (engine_http_client engine)) /\
  (forall filename, nonempty (python_script a) = Some filename ->
     engine_cls engine = engine_factory h /\
     processor_cls (engine_processor engine) = web_processor_factory h /\
     resolver_cls resolver = resolver_factory h) /\
  (nonempty (python_script a) = None ->
     m !! "Engine" = Some (engine_cls engine) /\
     m !! "WebProcessor" = Some (processor_cls (engine_processor engine)) /\
     m !! "Resolver" = Some (resolver_cls resolver)).
Proof.
  unused.
  intros H a m h resolver.
  destruct (build_Ok_inv _ _ _ H)
    as (_ & _ & Hm & Htab & _ & Hp & Hc & He & _).
  fold a m in Hm.
  apply get_class_Ok in Htab, He.
  apply _build_processor_Ok in Hp as (Hp & _). apply get_class_Ok in Hp.
  assert (_classes (self w') !! "Client"
            = Some (client_cls (engine_http_client engine))) as Hcl.
  { unfold _build_http_client in Hc.
    destruct (timeouts (_args (self w'))) as [[dns conn] rd].
    apply bind_Ok_inv in Hc as (r & _ & Hc).
    apply bind_Ok_inv in Hc as (pc & _ & Hc).
    apply bind_Ok_inv in Hc as (rec & _ & Hc).
    apply bind_Ok_inv in Hc as (cc & Hcc & Hc).
    apply get_class_Ok in Hcc. now injection Hc as <-. }
  apply _build_http_client_Ok in Hc as (r & rec & Hr & _ & _ & Hcf).
  apply build_resolver_Ok, get_class_Ok in Hr.
  assert (resolver = r) as -> by (unfold resolver; now rewrite Hcf).
  rewrite Hm in *.
  assert (("URLTable" ∉ hookable) /\ ("Client" ∉ hookable)) as [Hn1 Hn2].
  { split; intros Hin;
      repeat (apply elem_of_cons in Hin as [Hin|Hin]; [discriminate Hin|]);
      now apply elem_of_nil in Hin. }
  destruct (nonempty (python_script a)) as [f|].
  - rewrite hooked_lookup_other in Hcl, Htab by assumption.
    rewrite hooked_Engine in He. rewrite hooked_WebProcessor in Hp.
    rewrite hooked_Resolver in Hr.
    split; [assumption|]. split; [assumption|].
    split; [|discriminate].
    intros _ _. subst h. repeat split; congruence.
  - split; [assumption|]. split; [assumption|].
    split; [discriminate|]. auto.
Qed.

(** X11: the URLs [build] inserts into the URL table are those of the very
    seed records it hands to the span-hosts filter of the processor, and
    the engine holds the table they were inserted into. *)
Theorem seeds_feed_table_and_span_hosts_filter (w : World) (engine : Engine)
    (w' : World) :
  build w = (Ok engine, w') ->
  let infos := _url_infos (self w) in
  SpanHostsFilter infos (span_hosts (_args (self w)))
    ∈ url_filters (engine_processor engine) /\
  exists pre,
    trace w' =
      (trace w ++ pre ++
       [EvURLTableAdd (engine_url_table engine) (map url infos)])%list /\
    adds pre = [].
Proof.
  unused.
  intros H infos.
  destruct (build_Ok_inv _ _ _ H)
    as (Ha & Hu & _ & _ & _ & Hp & _).
  apply _build_processor_Ok in Hp as (_ & -> & _).
  split.
  - unfold _build_url_filters. rewrite Ha, Hu. fold infos.
    destruct (no_parent (_args (self w)));
      repeat first [apply list_elem_of_here | apply list_elem_of_further].
  - apply build_spec in H as (evs & Ht & _ & pre & -> & Hpre).
    exists pre. split; assumption.
Qed.

(** X12: the [robots] option reaches the processor, the HTML scraper and,
    when there is an archive writer, its first extra field ([on] or
    [off]) as one and the same setting. *)
Theorem robots_setting_is_shared (w : World) (engine : Engine) (w' : World) :
  build w = (Ok engine, w') ->
  let a := _args (self w) in
  let p := engine_processor engine in
  processor_robots p = robots a /\
  HTMLScraper (follow_tags a) (ignore_tags a) (relative a) (robots a)
    ∈ document_scrapers p /\
  forall cls filename compress extra temp log appending,
    WARCRecorder cls filename compress extra temp log appending
      ∈ recorders (recorder (engine_http_client engine)) ->
    head extra = Some ("robots", if robots a then "on" else "off").
Proof.
  unused.
  intros H a p.
  destruct (build_Ok_inv _ _ _ H)
    as (Ha & _ & _ & _ & _ & Hp & Hc & _).
  apply _build_processor_Ok in Hp as (_ & _ & Hs & _ & Hr).
  fold p in Hs, Hr. rewrite Ha in Hr. fold a in Hr.
  split; [assumption|]. split.
  { rewrite Hs. unfold _build_document_scrapers. rewrite Ha. fold a.
    apply list_elem_of_here. }
  intros cls filename compress extra temp log appending Hin.
  apply _build_http_client_Ok in Hc as (_ & rec & _ & Hrec & <- & _).
  destruct (_build_recorder_Ok_inv _ _ Hrec)
    as (archive & rest & Heq & Hnone & Hsome & Hrest).
  rewrite Ha in Hnone, Hsome. fold a in Hnone, Hsome.
  rewrite Heq in Hin. apply elem_of_app in Hin as [Hin|Hin].
  - destruct (nonempty (warc_file a)) as [f|].
    + destruct (Hsome f eq_refl) as (c & pairs & ->).
      apply list_elem_of_singleton in Hin. now injection Hin as _ _ _ -> _ _ _.
    + rewrite (Hnone eq_refl) in Hin. now apply elem_of_nil in Hin.
  - exfalso.
    assert (ArchiveSink ∈ map sink_kind rest) as Hk
      by (apply list_elem_of_fmap; eexists; split; [|exact Hin]; reflexivity).
    apply (elem_of_sublist _ _ _ Hk) in Hrest. rename Hrest into Hk'.
    clear Hk. rename Hk' into Hk.
    repeat (apply elem_of_cons in Hk as [Hk|Hk]; [discriminate Hk|]).
    now apply elem_of_nil in Hk.
Qed.

(** ** Running [build] *)

Lemma _build_http_client_bad_header b :
  standard (_classes b) -> warc_headers_ok (_args b) = false ->
  _build_http_client b = Raise ValueError.
Proof.
  unused.
  intros Hstd Hbad. unfold _build_http_client.
  destruct (build_resolver_returns b (proj1 Hstd)) as [r Hr].
  destruct (timeouts (_args b)) as [[dns conn] rd].
  rewrite Hr, bind_Ok.
  rewrite (standard_get b "ConnectionPool" _ Hstd eq_refl eq_refl), bind_Ok.
  now rewrite (_build_recorder_bad_header b Hbad).
Qed.

(** The first four steps of [build] when logging and the hook script go
    well: the world in which the processor and the client are then built. *)
Lemma build_prefix_run w :
  standard (_classes (self w)) ->
  file_logger_ok (_args (self w)) -> script_ok (_args (self w)) ->
  exists pre table w4,
    (forall k : URLTable -> M Engine,
       (_setup_logging ;; _setup_file_logger ;; _install_script_hooks ;;
        url_table ← _build_url_table; k url_table) w = k table w4) /\
    table = {| table_cls := URLTable_class;
               table_path := database (_args (self w)) |} /\
    trace w4 =
      (trace w ++ pre ++
       [EvURLTableAdd table (map url (_url_infos (self w)))])%list /\
    adds pre = [] /\ runs pre = [] /\
    _args (self w4) = _args (self w) /\
    standard (_classes (self w4)).
Proof.
  unused.
  intros Hstd Hlog Hscript.
  destruct (_setup_logging_Ok w) as (e1 & H1 & Ha1 & Hr1).
  destruct (_setup_file_logger_Ok (extend w e1) Hlog)
    as (e2 & H2 & Ha2 & Hr2).
  rewrite extend_extend in H2.
  destruct (_install_script_hooks_Ok (extend w (e1 ++ e2)) Hscript)
    as (e3 & w3 & H3 & Ht3 & Ha3 & Hr3 & Hself3).
  simpl in Ht3, Hself3.
  assert (standard (_classes (self w3))) as Hstd3.
  { rewrite Hself3.
    destruct (nonempty (python_script (_args (self w))));
      simpl; auto using hooked_standard. }
  assert (_args (self w3) = _args (self w)) as Hargs3.
  { rewrite Hself3.
    destruct (nonempty (python_script (_args (self w)))); reflexivity. }
  assert (_url_infos (self w3) = _url_infos (self w)) as Hinfos3.
  { rewrite Hself3.
    destruct (nonempty (python_script (_args (self w)))); reflexivity. }
  pose proof (_build_url_table_run w3 URLTable_class
                (standard_get _ "URLTable" _ Hstd3 eq_refl eq_refl)) as H4.
  cbv zeta in H4. rewrite Hargs3, Hinfos3 in H4.
  eexists (e1 ++ e2 ++ e3)%list, _, _. split.
  { intros k.
    rewrite (M_bind_Ok _ _ _ _ _ H1), (M_bind_Ok _ _ _ _ _ H2),
      (M_bind_Ok _ _ _ _ _ H3), (M_bind_Ok _ _ _ _ _ H4).
    reflexivity. }
  split; [reflexivity|]. simpl.
  split. { rewrite Ht3, <- !app_assoc. reflexivity. }
  rewrite !adds_app, !runs_app, Ha1, Ha2, Ha3, Hr1, Hr2, Hr3.
  auto.
Qed.

(** X13: with a standard registry, well-formed archive headers, a log
    file that opens and a hook script that runs (when either is asked
    for), [build] returns an engine: its URL table is a [URLTable] on the
    [database] path, its client a [Client], its [concurrent] the option of
    that name; [build_and_run] then runs that engine and returns what
    [run_sync] returns. *)
Theorem build_returns_an_engine (w : World) :
  standard (_classes (self w)) ->
  warc_headers_ok (_args (self w)) = true ->
  file_logger_ok (_args (self w)) -> script_ok (_args (self w)) ->
  let a := _args (self w) in
  exists engine w',
    build w = (Ok engine, w') /\
    build_and_run w = (run_sync engine, extend w' [EvRunSync engine]) /\
    engine_url_table engine
      = {| table_cls := URLTable_class; table_path := database a |} /\
    client_cls (engine_http_client engine) = Client_class /\
    engine_concurrent engine = concurrent a.
Proof.
  unused.
  intros Hstd Hok Hlog Hscript a.
  destruct (build_prefix_run w Hstd Hlog Hscript)
    as (pre & table & w4 & Hrun & Htable & _ & _ & _ & Hargs & Hstd4).
  destruct (_build_processor_returns _ (proj1 Hstd4)) as [p Hp].
  rewrite <- Hargs in Hok.
  destruct (_build_http_client_returns _ Hstd4 Hok) as [c Hc].
  destruct (complete_get (self w4) "Engine" (proj1 Hstd4)) as [cls Hcls];
    [now eexists|].
  assert (client_cls c = Client_class) as Hclient.
  { unfold _build_http_client in Hc.
    destruct (timeouts (_args (self w4))) as [[dns conn] rd].
    apply bind_Ok_inv in Hc as (r & _ & Hc).
    apply bind_Ok_inv in Hc as (pc & _ & Hc).
    apply bind_Ok_inv in Hc as (rec & _ & Hc).
    apply bind_Ok_inv in Hc as (cc & Hcc & Hc).
    rewrite (standard_get _ "Client" _ Hstd4 eq_refl eq_refl) in Hcc.
    injection Hcc as <-. now injection Hc as <-. }
  assert (build w =
            (Ok {| engine_cls := cls; engine_url_table := table;
                   engine_http_client := c; engine_processor := p;
                   engine_concurrent := concurrent (_args (self w4)) |},
             w4)) as Hbuild.
  { unfold build. rewrite Hrun.
    rewrite (M_bind_Ok _ _ w4 p w4) by (rewrite read_run, Hp; reflexivity).
    rewrite (M_bind_Ok _ _ w4 c w4) by (rewrite read_run, Hc; reflexivity).
    unfold with_self, mbind, M_bind, lift. now rewrite Hcls. }
  eexists _, _. split; [exact Hbuild|]. split.
  { unfold build_and_run. rewrite (M_bind_Ok _ _ _ _ _ Hbuild).
    unfold mbind, M_bind, emit, lift. reflexivity. }
  simpl. rewrite Hargs. auto.
Qed.

(** X14: a [warc_header] string without a colon is found only after the
    seeds were inserted: with an archive file named, a standard registry,
    and logging and hook script going well, [build_and_run] raises
    [ValueError], the URL table has by then received the seed URLs, and the
    engine is never run. *)
Theorem bad_warc_header_fails_after_seeding (w : World) :
  standard (_classes (self w)) ->
  warc_headers_ok (_args (self w)) = false ->
  file_logger_ok (_args (self w)) -> script_ok (_args (self w)) ->
  exists pre table w',
    build_and_run w = (Raise ValueError, w') /\
    trace w' =
      (trace w ++ pre ++
       [EvURLTableAdd table (map url (_url_infos (self w)))])%list /\
    adds pre = [] /\ runs pre = [].
Proof.
  unused.
  intros Hstd Hbad Hlog Hscript.
  destruct (build_prefix_run w Hstd Hlog Hscript)
    as (pre & table & w4 & Hrun & _ & Htrace & Ha & Hr & Hargs & Hstd4).
  destruct (_build_processor_returns _ (proj1 Hstd4)) as [p Hp].
  rewrite <- Hargs in Hbad.
  pose proof (_build_http_client_bad_header _ Hstd4 Hbad) as Hc.
  assert (build w = (Raise ValueError, w4)) as Hbuild.
  { unfold build. rewrite Hrun.
    rewrite (M_bind_Ok _ _ w4 p w4) by (rewrite read_run, Hp; reflexivity).
    apply M_bind_Raise. now rewrite read_run, Hc. }
  exists pre, table, w4. split; [|auto].
  unfold build_and_run. now apply M_bind_Raise.
Qed.

(** X15: when the hook script that is named cannot be opened, cannot be
    read, or raises, [build_and_run] raises; nothing has been inserted into
    the URL table and the engine is not run.  The error is the script's
    unless the log file handler failed first. *)
Theorem failing_script_stops_before_seeding (w : World) (filename : string)
    (e : Exn) :
  nonempty (python_script (_args (self w))) = Some filename ->
  script_fails filename e ->
  exists e' evs w',
    build_and_run w = (Raise e', w') /\
    trace w' = (trace w ++ evs)%list /\
    adds evs = [] /\ runs evs = [] /\
    (file_logger_ok (_args (self w)) -> e' = e).
Proof.
  unused.
  intros Hname Hfails.
  destruct (_setup_logging_Ok w) as (e1 & H1 & Ha1 & Hr1).
  destruct (_setup_file_logger (extend w e1)) as [r2 w2] eqn:H2.
  pose proof (keeps_self__setup_file_logger _ _ _ H2) as Hself2.
  destruct (silent__setup_file_logger _ _ _ H2)
    as (_ & _ & e2 & Ht2 & Ha2 & Hr2).
  simpl in Hself2, Ht2.
  assert (exists e' evs w',
            build w = (Raise e', w') /\
            trace w' = (trace w ++ evs)%list /\
            adds evs = [] /\ runs evs = [] /\
            (file_logger_ok (_args (self w)) -> e' = e))
    as (e' & evs & w' & Hbuild & Hrest).
  { destruct r2 as [[]|e2'].
    - rewrite <- Hself2 in Hname.
      destruct (_install_script_hooks_fails w2 filename e Hname Hfails)
        as [w3 H3].
      destruct (silent__install_script_hooks _ _ _ H3)
        as (_ & _ & e3 & Ht3 & Ha3 & Hr3).
      exists e, (e1 ++ e2 ++ e3)%list, w3. split.
      { unfold build.
        rewrite (M_bind_Ok _ _ _ _ _ H1), (M_bind_Ok _ _ _ _ _ H2).
        now apply M_bind_Raise. }
      split. { rewrite Ht3, Ht2, <- !app_assoc. reflexivity. }
      rewrite !adds_app, !runs_app, Ha1, Ha2, Ha3, Hr1, Hr2, Hr3. auto.
    - exists e2', (e1 ++ e2)%list, w2. split.
      { unfold build. rewrite (M_bind_Ok _ _ _ _ _ H1).
        now apply M_bind_Raise. }
      split. { rewrite Ht2, <- !app_assoc. reflexivity. }
      rewrite !adds_app, !runs_app, Ha1, Ha2, Hr1, Hr2.
      repeat split; auto.
      intros Hlog.
      destruct (_setup_file_logger_Ok (extend w e1) Hlog) as (? & H & _).
      congruence. }
  exists e', evs, w'. split; [|exact Hrest].
  unfold build_and_run. now apply M_bind_Raise.
Qed.


End Builder.

(* ===================================================================== *)
(** * The properties on concrete command lines                           *)
(* ===================================================================== *)

(** A builder as [__init__] leaves its registry, for a given command line. *)
Definition demo_builder (a : Args) : Builder :=
  {| _args := a; _classes := initial_classes; _url_infos := [] |}.

(** [wpull http://a.test/] *)
Definition plain_builder : Builder := demo_builder Demo.plain.

(** [wpull http://a.test/ --timeout 5] *)
Definition timeout_builder : Builder :=
  demo_builder
    (Demo.args ["http://a.test/"] None None None [] None None []
       (Some (5 # 1)%Q) false).

(** [wpull http://a.test/ --timeout 0] *)
Definition zero_timeout_builder : Builder :=
  demo_builder
    (Demo.args ["http://a.test/"] None None None [] None None []
       (Some (0 # 1)%Q) false).

(** [wpull http://a.test/ --warc-file out --warc-header 'operator: me '
    --warc-header ' x:y:z'] *)
Definition warc_builder : Builder :=
  demo_builder
    (Demo.args ["http://a.test/"] None None (Some "out")
       ["operator: me "; " x:y:z"] None None [] None false).

(** [wpull http://a.test/ --python-script hook.py] *)
Definition script_builder : Builder :=
  demo_builder
    (Demo.args ["http://a.test/"] None (Some "hook.py") None [] None None []
       None false).

(** [wpull http://a.test/ --user-agent UA --referer http://r/
    --header 'X-Test: 1'] *)
Definition headers_builder : Builder :=
  demo_builder
    (Demo.args ["http://a.test/"] None None None [] (Some "UA")
       (Some "http://r/") ["X-Test: 1"] None false).

(** [wpull http://a.test/ --header 'Referer: http://r/'] *)
Definition referer_header_builder : Builder :=
  demo_builder
    (Demo.args ["http://a.test/"] None None None [] None None
       ["Referer: http://r/"] None false).

(** [wpull a.test -i seeds.txt], the file holding the one line [b.test]. *)
Definition seeds_args : Args :=
  Demo.args ["a.test"] (Some ["b.test"]) None None [] None None [] None false.

Lemma file_writer_selection_witness :
  exists w, _build_file_writer plain_builder = Ok w /\
            writer_file_class w = Some AntiClobberFileWriter.
Proof.
  destruct (file_writer_selection plain_builder) as (w & Hw & _ & _ & H).
  { eexists. reflexivity. }
  exists w. split; [exact Hw|].
  apply H; reflexivity.
Defined.

Lemma resolver_construction_witness :
  (exists r, build_resolver plain_builder = Ok r /\
             resolver_cls r = Resolver_class /\
             families r = [IPv4; IPv6] /\
             resolver_timeout r = Some (1 # 1)%Q) /\
  (exists r, build_resolver timeout_builder = Ok r /\
             resolver_timeout r = Some (5 # 1)%Q) /\
  (exists r, build_resolver zero_timeout_builder = Ok r /\
             resolver_timeout r = Some (1 # 1)%Q).
Proof.
  split; [|split].
  - destruct (resolver_construction Demo.Namespace_str plain_builder
                Resolver_class eq_refl)
      as (r & Hr & Hcls & _ & _ & Hfam & _ & _ & Hdns & _).
    exists r. split; [exact Hr|]. split; [exact Hcls|]. split.
    + apply Hfam; discriminate.
    + apply Hdns. left. reflexivity.
  - destruct (resolver_construction Demo.Namespace_str timeout_builder
                Resolver_class eq_refl)
      as (r & Hr & _ & _ & _ & _ & _ & Hset & _).
    exists r. split; [exact Hr|].
    apply Hset; [reflexivity | discriminate].
  - destruct (resolver_construction Demo.Namespace_str zero_timeout_builder
                Resolver_class eq_refl)
      as (r & Hr & _ & _ & _ & _ & _ & _ & Hdns & _).
    exists r. split; [exact Hr|].
    apply Hdns. right. exists (0 # 1)%Q. split; reflexivity.
Defined.

(** C3 as first stated does not hold: with [--timeout 5] and a DNS
    time-out of 1, the resolver is given 5. *)
Lemma resolver_timeout_is_not_dns_timeout :
  exists r,
    build_resolver timeout_builder = Ok r /\
    dns_timeout (_args timeout_builder) = Some (1 # 1)%Q /\
    resolver_timeout r = Some (5 # 1)%Q /\
    resolver_timeout r <> dns_timeout (_args timeout_builder).
Proof.
  eexists. split; [reflexivity|]. split; [reflexivity|].
  split; [reflexivity|]. discriminate.
Qed.

Lemma umbrella_timeout_witness :
  (exists client,
     _build_http_client Demo.Namespace_str timeout_builder = Ok client /\
     resolver_timeout (cf_resolver (client_connection_factory client))
       = Some (5 # 1)%Q /\
     forall ca conn,
       call_connection_factory timeout_builder
         (client_connection_factory client) ca = Ok conn ->
       connection_connect_timeout conn = Some (5 # 1)%Q /\
       connection_read_timeout conn = Some (5 # 1)%Q) /\
  (exists client,
     _build_http_client Demo.Namespace_str zero_timeout_builder = Ok client /\
     resolver_timeout (cf_resolver (client_connection_factory client))
       = Some (1 # 1)%Q /\
     forall ca conn,
       call_connection_factory zero_timeout_builder
         (client_connection_factory client) ca = Ok conn ->
       connection_connect_timeout conn = Some (2 # 1)%Q /\
       connection_read_timeout conn = Some (900 # 1)%Q).
Proof.
  split.
  - destruct (_build_http_client Demo.Namespace_str timeout_builder)
      as [client|e] eqn:Hclient; [|vm_compute in Hclient; discriminate].
    exists client. split; [reflexivity|].
    destruct (umbrella_timeout Demo.Namespace_str timeout_builder client
                Hclient) as [Hset _].
    destruct (Hset (5 # 1)%Q eq_refl ltac:(discriminate)) as [Hdns Hconn].
    split; [exact Hdns|].
    intros ca conn H. apply (Hconn _ _ _ H).
  - destruct (_build_http_client Demo.Namespace_str zero_timeout_builder)
      as [client|e] eqn:Hclient; [|vm_compute in Hclient; discriminate].
    exists client. split; [reflexivity|].
    destruct (umbrella_timeout Demo.Namespace_str zero_timeout_builder client
                Hclient) as [_ Hunset].
    destruct (Hunset (or_intror (ex_intro _ (0 # 1)%Q (conj eq_refl eq_refl))))
      as [Hdns Hconn].
    split; [exact Hdns|].
    intros ca conn H. apply (Hconn _ _ _ H).
Defined.

Lemma recorder_is_demux_over_selected_sinks_witness :
  exists rec,
    _build_recorder Demo.Namespace_str warc_builder = Ok rec /\
    demux_cls rec = DemuxRecorder_class /\
    existsb is_warc (recorders rec) = true /\
    existsb is_progress (recorders rec) = true.
Proof.
  destruct (recorder_is_demux_over_selected_sinks Demo.Namespace_str
              warc_builder initial_standard eq_refl)
    as (rec & Hrec & Hcls & Hwarc & _ & Hprogress & _).
  exists rec. split; [exact Hrec|]. split; [exact Hcls|]. split.
  - apply Hwarc. reflexivity.
  - apply Hprogress. right. right. right. reflexivity.
Defined.

Lemma warc_recorder_arguments_witness :
  exists rec rest,
    _build_recorder Demo.Namespace_str warc_builder = Ok rec /\
    recorders rec =
      WARCRecorder WARCRecorder_class "out.warc.gz" true
        [("robots", "on"); ("wpull-arguments", "Namespace()");
         ("operator", "me"); ("x", "y:z")]
        None true false :: rest.
Proof.
  destruct (warc_recorder_arguments Demo.Namespace_str warc_builder "out"
              initial_standard eq_refl eq_refl)
    as (rec & path & compress & extra & temp & log & appending & rest
        & Hrec & Hlist & _ & Hgz & _ & Hextra & Happ).
  destruct (Hgz eq_refl) as [Hpath Hcompress].
  assert (_build_recorder Demo.Namespace_str warc_builder = Ok rec) as Hrec'
    by exact Hrec.
  vm_compute in Hrec. injection Hrec as <-.
  injection Hlist as <- <- <- <- <- <- <-.
  eexists _, _. split; [exact Hrec'|]. reflexivity.
Defined.

Lemma hook_script_rebinds_three_entries_witness :
  exists r w',
    _install_script_hooks Demo.open_ Demo.exec_ (start script_builder)
      = (r, w') /\
    _classes (self w') !! "Engine" = Some (engine_factory HookEnvironment_new) /\
    _classes (self w') !! "WebProcessor"
      = Some (web_processor_factory HookEnvironment_new) /\
    _classes (self w') !! "Resolver"
      = Some (resolver_factory HookEnvironment_new) /\
    _classes (self w') !! "URLTable" = Some URLTable_class /\
    _classes (self w') !! "CSSScraper" = Some Engine_class.
Proof.
  destruct (_install_script_hooks Demo.open_ Demo.exec_ (start script_builder))
    as [r w'] eqn:Hrun.
  exists r, w'. split; [reflexivity|].
  destruct (hook_script_rebinds_three_entries Demo.open_ Demo.exec_ _ _ _ Hrun)
    as [Hscript _].
  destruct (Hscript "hook.py" (Ok "pass") eq_refl eq_refl)
    as (He & Hw & Hr & Hother & _).
  split; [exact He|]. split; [exact Hw|]. split; [exact Hr|].
  split; (rewrite Hother; [reflexivity|]); intros Hin;
    repeat (apply elem_of_cons in Hin as [Hin|Hin]; [discriminate Hin|]);
    now apply elem_of_nil in Hin.
Defined.

Lemma seeds_inserted_once_before_run_witness :
  exists b w engine pre,
    __init__ Demo.parse seeds_args = Ok b /\
    build_and_run Demo.Namespace_str Demo.open_ Demo.exec_ Demo.FileHandler
      Demo.run_sync (start b) = (Ok 0, w) /\
    trace w = (pre ++ [EvURLTableAdd (engine_url_table engine)
                         (map url (_url_infos b));
                       EvRunSync engine])%list /\
    adds pre = [] /\ runs pre = [].
Proof.
  destruct (__init__ Demo.parse seeds_args) as [b|e] eqn:Hb;
    [|vm_compute in Hb; discriminate].
  destruct (build_and_run Demo.Namespace_str Demo.open_ Demo.exec_
              Demo.FileHandler Demo.run_sync (start b)) as [r w] eqn:Hrun.
  destruct (seeds_inserted_once_before_run Demo.parse Demo.Namespace_str
              Demo.open_ Demo.exec_ Demo.FileHandler Demo.run_sync
              seeds_args b r w Hb Hrun) as (_ & _ & Hok & _).
  assert (r = Ok 0) as Hr.
  { clear Hok. vm_compute in Hb. injection Hb as <-.
    vm_compute in Hrun. injection Hrun as <- _. reflexivity. }
  destruct (Hok 0 Hr) as (pre & engine & Htrace & Hadds & Hruns).
  exists b, w, engine, pre. rewrite <- Hr.
  split; [reflexivity|]. split; [exact Hrun|].
  split; [exact Htrace|]. split; [exact Hadds | exact Hruns].
Defined.

Lemma request_factory_headers_witness :
  exists r,
    call_request_factory Demo.version Demo.new headers_builder
      (Demo.get "http://a.test/") = Ok r /\
    head (fields_get_list "User-Agent" (fields r)) = Some "UA" /\
    head (fields_get_list "Referer" (fields r)) = Some "http://r/" /\
    fields_get_list "X-Test" (fields r) = ["1"].
Proof.
  destruct (request_factory_headers Demo.version Demo.new headers_builder
              (Demo.get "http://a.test/") Request_class
              {| request_cls := Request_class;
                 request_args := Demo.get "http://a.test/";
                 fields := [] |}
              [("X-Test", "1")] eq_refl eq_refl)
    as (r & Hr & Hua & _ & Href & _ & before & Hfields).
  { repeat constructor. }
  exists r. split; [exact Hr|].
  split; [apply Hua; reflexivity|]. split; [apply Href; reflexivity|].
  vm_compute in Hr. injection Hr as <-. reflexivity.
Defined.

(** C7 as first stated does not hold: here no referer is configured, yet
    the request carries a [Referer] field, the one a header string
    supplies. *)
Lemma referer_header_without_referer_option :
  exists r,
    call_request_factory Demo.version Demo.new referer_header_builder
      (Demo.get "http://a.test/") = Ok r /\
    truthy_str (referer (_args referer_header_builder)) = false /\
    fields_contains "Referer" (fields r) = true /\
    ~ (fields_contains "Referer" (fields r) = true <->
       truthy_str (referer (_args referer_header_builder)) = true).
Proof.
  eexists. split; [vm_compute; reflexivity|].
  split; [reflexivity|]. split; [reflexivity|].
  intros [H _]. discriminate (H eq_refl).
Qed.

(* ===================================================================== *)
(** * The further properties on concrete command lines                   *)
(* ===================================================================== *)

Definition a_test : URLInfo :=
  {| url := "http://a.test/"; scheme := "http"; hostname := "a.test";
     port := 80; path := "/" |}.

(** A builder that holds the parsed seed [http://a.test/]. *)
Definition seeded_builder (a : Args) : Builder :=
  {| _args := a; _classes := initial_classes; _url_infos := [a_test] |}.

(** [wpull http://a.test/ --warc-file out --warc-header 'no colon'] *)
Definition bad_header_builder : Builder :=
  seeded_builder
    (Demo.args ["http://a.test/"] None None (Some "out") ["no colon"]
       None None [] None false).

(** A file system without the hook script. *)
Definition missing_script (filename : string) : Result (Result string) :=
  Raise IOError.

Lemma init_builds_one_record_per_seed_witness :
  exists b, __init__ Demo.parse seeds_args = Ok b /\
            length (_url_infos b) = 2%nat.
Proof.
  destruct (init_builds_one_record_per_seed Demo.parse seeds_args)
    as (b & Hb & _ & _ & Hlen & _).
  { intros s Hs.
    repeat (apply elem_of_cons in Hs as [->|Hs]; [eexists; reflexivity|]).
    now apply elem_of_nil in Hs. }
  exists b. split; [exact Hb | exact Hlen].
Defined.

Lemma build_and_run_rebinds_only_hookable_names_witness :
  exists r w',
    build_and_run Demo.Namespace_str Demo.open_ Demo.exec_ Demo.FileHandler
      Demo.run_sync (start script_builder) = (r, w') /\
    _classes (self w') !! "CSSScraper" = Some Engine_class /\
    _args (self w') = _args script_builder.
Proof.
  destruct (build_and_run Demo.Namespace_str Demo.open_ Demo.exec_
              Demo.FileHandler Demo.run_sync (start script_builder))
    as [r w'] eqn:Hrun.
  destruct (build_and_run_rebinds_only_hookable_names _ _ _ _ _ _ _ _ Hrun)
    as (Hargs & _ & Hother & _).
  exists r, w'. split; [reflexivity|]. split; [|exact Hargs].
  rewrite Hother; [reflexivity|].
  intros Hin.
  repeat (apply elem_of_cons in Hin as [Hin|Hin]; [discriminate Hin|]).
  now apply elem_of_nil in Hin.
Defined.

Lemma recorder_raises_on_header_without_colon_witness :
  _build_recorder Demo.Namespace_str bad_header_builder = Raise ValueError /\
  _build_http_client Demo.Namespace_str bad_header_builder = Raise ValueError.
Proof.
  destruct (recorder_raises_on_header_without_colon Demo.Namespace_str
              bad_header_builder initial_standard) as (_ & Hbad & _).
  apply Hbad. split; [reflexivity|].
  exists "no colon". split; [apply list_elem_of_here | reflexivity].
Defined.

Lemma recorder_sinks_in_fixed_order_witness :
  exists rec,
    _build_recorder Demo.Namespace_str warc_builder = Ok rec /\
    NoDup (map sink_kind (recorders rec)).
Proof.
  destruct (_build_recorder Demo.Namespace_str warc_builder)
    as [rec|e] eqn:Hrec; [|vm_compute in Hrec; discriminate].
  exists rec. split; [reflexivity|].
  exact (proj2 (recorder_sinks_in_fixed_order _ _ _ Hrec)).
Defined.

Lemma path_namer_use_dir_witness :
  exists fc pn continuing headers timestamps,
    _build_file_writer plain_builder
      = Ok (FileWriter fc pn continuing headers timestamps) /\
    pn_use_dir pn = false /\ timestamps = true.
Proof.
  destruct (_build_file_writer plain_builder)
    as [[|fc pn continuing headers timestamps]|e] eqn:Hw;
    [vm_compute in Hw; discriminate| |vm_compute in Hw; discriminate].
  destruct (path_namer_use_dir _ _ _ _ _ _ Hw)
    as (_ & _ & _ & Hdir & _ & _ & Ht).
  exists fc, pn, continuing, headers, timestamps.
  split; [reflexivity|]. split; [|exact Ht].
  destruct (pn_use_dir pn); [|reflexivity].
  destruct (Hdir ltac:(discriminate) ltac:(discriminate)) as [Hdir' _].
  destruct (Hdir' eq_refl) as [H|[H|H]];
    [exfalso; apply H; reflexivity | discriminate H | discriminate H].
Defined.

Lemma pooled_connections_share_resolver_witness :
  exists client host_pool conn,
    _build_http_client Demo.Namespace_str plain_builder = Ok client /\
    call_host_connection_pool_factory plain_builder
      (host_connection_pool_factory (connection_pool client))
      (Demo.get "a.test") = Ok host_pool /\
    call_connection_factory plain_builder
      (host_pool_connection_factory host_pool) (Demo.get "a.test") = Ok conn /\
    build_resolver plain_builder = Ok (connection_resolver conn) /\
    connection_keep_alive conn = true.
Proof.
  destruct (_build_http_client Demo.Namespace_str plain_builder)
    as [client|e] eqn:Hclient; [|vm_compute in Hclient; discriminate].
  destruct (call_host_connection_pool_factory plain_builder
              (host_connection_pool_factory (connection_pool client))
              (Demo.get "a.test"))
    as [host_pool|e] eqn:Hpool; [|vm_compute in Hpool; discriminate].
  destruct (call_connection_factory plain_builder
              (host_pool_connection_factory host_pool) (Demo.get "a.test"))
    as [conn|e] eqn:Hconn; [|vm_compute in Hconn; discriminate].
  destruct (pooled_connections_share_resolver _ _ _ _ _ _ _ _
              Hclient Hpool Hconn) as (Hr & Hk & _).
  exists client, host_pool, conn.
  split; [reflexivity|]. split; [exact Hpool|]. split; [exact Hconn|].
  split; [exact Hr | exact Hk].
Defined.

Lemma hook_factories_build_the_engine_witness :
  exists engine w',
    build Demo.Namespace_str Demo.open_ Demo.exec_ Demo.FileHandler
      (start script_builder) = (Ok engine, w') /\
    engine_cls engine = engine_factory HookEnvironment_new /\
    processor_cls (engine_processor engine)
      = web_processor_factory HookEnvironment_new /\
    client_cls (engine_http_client engine) = Client_class.
Proof.
  destruct (build Demo.Namespace_str Demo.open_ Demo.exec_ Demo.FileHandler
              (start script_builder)) as [[engine|e] w'] eqn:Hbuild;
    [|vm_compute in Hbuild; discriminate].
  destruct (hook_factories_build_the_engine _ _ _ _ _ _ _ Hbuild)
    as (_ & Hclient & Hscript & _).
  destruct (Hscript "hook.py" eq_refl) as (He & Hp & _).
  exists engine, w'. split; [reflexivity|].
  split; [exact He|]. split; [exact Hp|].
  change (Some Client_class = Some (client_cls (engine_http_client engine)))
    in Hclient.
  now injection Hclient as <-.
Defined.

Lemma build_returns_an_engine_witness :
  exists engine w',
    build Demo.Namespace_str Demo.open_ Demo.exec_ Demo.FileHandler
      (start plain_builder) = (Ok engine, w') /\
    build_and_run Demo.Namespace_str Demo.open_ Demo.exec_ Demo.FileHandler
      Demo.run_sync (start plain_builder)
      = (Ok 0, extend w' [EvRunSync engine]) /\
    engine_concurrent engine = 1.
Proof.
  destruct (build_returns_an_engine Demo.Namespace_str Demo.open_ Demo.exec_
              Demo.FileHandler Demo.run_sync (start plain_builder)
              initial_standard eq_refl I I)
    as (engine & w' & Hbuild & Hrun & _ & _ & Hc).
  exists engine, w'. split; [exact Hbuild|]. split; [exact Hrun | exact Hc].
Defined.

Lemma failing_script_stops_before_seeding_witness :
  exists w',
    build_and_run Demo.Namespace_str missing_script Demo.exec_
      Demo.FileHandler Demo.run_sync (start script_builder)
      = (Raise IOError, w') /\
    adds (trace w') = [] /\ runs (trace w') = [].
Proof.
  destruct (failing_script_stops_before_seeding Demo.Namespace_str
              missing_script Demo.exec_ Demo.FileHandler Demo.run_sync
              (start script_builder) "hook.py" IOError eq_refl
              (or_introl eq_refl))
    as (e' & evs & w' & Hrun & Htrace & Hadds & Hruns & He).
  rewrite (He I) in Hrun.
  exists w'. split; [exact Hrun|].
  change (trace w' = evs) in Htrace. rewrite Htrace. split; assumption.
Defined.

Lemma bad_warc_header_fails_after_seeding_witness :
  exists pre table w',
    build_and_run Demo.Namespace_str Demo.open_ Demo.exec_ Demo.FileHandler
      Demo.run_sync (start bad_header_builder) = (Raise ValueError, w') /\
    trace w' = (pre ++ [EvURLTableAdd table ["http://a.test/"]])%list /\
    adds pre = [] /\ runs pre = [].
Proof.
  exact (bad_warc_header_fails_after_seeding Demo.Namespace_str Demo.open_
           Demo.exec_ Demo.FileHandler Demo.run_sync
           (start bad_header_builder) initial_standard eq_refl I I).
Defined.

Lemma seeds_feed_table_and_span_hosts_filter_witness :
  exists engine w',
    build Demo.Namespace_str Demo.open_ Demo.exec_ Demo.FileHandler
      (start (seeded_builder Demo.plain)) = (Ok engine, w') /\
    SpanHostsFilter [a_test] false ∈ url_filters (engine_processor engine) /\
    adds (trace w') = [["http://a.test/"]].
Proof.
  destruct (build Demo.Namespace_str Demo.open_ Demo.exec_ Demo.FileHandler
              (start (seeded_builder Demo.plain)))
    as [[engine|e] w'] eqn:Hbuild; [|vm_compute in Hbuild; discriminate].
  destruct (seeds_feed_table_and_span_hosts_filter _ _ _ _ _ _ _ Hbuild)
    as (Hfilter & pre & Htrace & Hpre).
  exists engine, w'. split; [reflexivity|]. split; [exact Hfilter|].
  rewrite Htrace. simpl. unfold adds in *. rewrite omap_app, Hpre.
  reflexivity.
Defined.

Lemma robots_setting_is_shared_witness :
  exists engine w',
    build Demo.Namespace_str Demo.open_ Demo.exec_ Demo.FileHandler
      (start warc_builder) = (Ok engine, w') /\
    processor_robots (engine_processor engine) = true /\
    HTMLScraper None None false true
      ∈ document_scrapers (engine_processor engine).
Proof.
  destruct (build Demo.Namespace_str Demo.open_ Demo.exec_ Demo.FileHandler
              (start warc_builder)) as [[engine|e] w'] eqn:Hbuild;
    [|vm_compute in Hbuild; discriminate].
  destruct (robots_setting_is_shared _ _ _ _ _ _ _ Hbuild)
    as (Hrobots & Hscraper & _).
  exists engine, w'. split; [reflexivity|].
  split; [exact Hrobots | exact Hscraper].
Defined.
